(** * ginslog: request logger and panic recovery middlewares for gin

    A shallow embedding of [logger/config.go], [logger/middleware.go] and
    [recovery/middleware.go] (with [recovery/config.go]).  The packages the
    code calls into ([log/slog], [regexp], [gin], [uuid], [time]) are
    modelled by the small interfaces below; the middlewares themselves are
    transcribed statement by statement. *)

From Stdlib Require Import ZArith NArith String Ascii List Bool Lia DecimalString.
From stdpp Require Import base option gmap strings.

Import ListNotations.
Local Open Scope Z_scope.
Local Open Scope string_scope.
Local Open Scope list_scope.

(** ** Go values that cross an [interface{}] (panic values, [slog.Any]) *)

Inductive any : Type :=
| AnyString (s : string)
| AnyInt (z : Z)
| AnyError (msg : string).

(** ** log/slog *)

Module slog.

Definition Level : Type := Z.
Definition LevelDebug : Level := -4.
Definition LevelInfo : Level := 0.
Definition LevelWarn : Level := 4.
Definition LevelError : Level := 8.

Inductive Value : Type :=
| StringValue (s : string)
| IntValue (z : Z)
| DurationValue (ns : Z)
| AnyValue (v : any).

Record Attr : Type := mkAttr { Key : string; Val : Value }.

Definition String (k v : string) : Attr := mkAttr k (StringValue v).
Definition Int (k : string) (v : Z) : Attr := mkAttr k (IntValue v).
Definition Duration (k : string) (ns : Z) : Attr := mkAttr k (DurationValue ns).
Definition Any (k : string) (v : any) : Attr := mkAttr k (AnyValue v).

(** One call of [Logger.LogAttrs]: what the middleware hands to the sink. *)
Record Record : Type := mkRecord
  { RLevel : Level; Message : string; Attrs : list Attr }.

End slog.

(** ** Computations: state, the records handed to the logger, and panics *)

Inductive Outcome (A : Type) : Type :=
| Return (a : A)
| Panicking (v : any).
Arguments Return {A} a.
Arguments Panicking {A} v.

Definition Outcome_bind {A B : Type} (m : Outcome A) (f : A -> Outcome B) : Outcome B :=
  match m with
  | Return a => f a
  | Panicking v => Panicking v
  end.

Notation "'try' x := m 'in' k" := (Outcome_bind m (fun x => k))
  (at level 10, x name, m at level 100, k at level 200, only parsing).

(** What running a computation gives: its outcome, the store it leaves,
    and the records it handed to the logger, oldest first. *)
Definition Result (S A : Type) : Type := (Outcome A * S * list slog.Record)%type.

Definition outcome {S A : Type} (r : Result S A) : Outcome A := r.1.1.
Definition final {S A : Type} (r : Result S A) : S := r.1.2.
Definition records {S A : Type} (r : Result S A) : list slog.Record := r.2.

(** A computation over a store [S]. *)
Definition M (S A : Type) : Type := S -> Result S A.

Definition ret {S A : Type} (a : A) : M S A := fun s => (Return a, s, []).

Definition panic {S A : Type} (v : any) : M S A := fun s => (Panicking v, s, []).

(** The records [l] were written before [r] ran. *)
Definition prepend {S A : Type} (l : list slog.Record) (r : Result S A) : Result S A :=
  (outcome r, final r, l ++ records r).

(** Sequencing: a panic skips the rest and keeps the store and the
    records written so far. *)
Definition andThen {S A B : Type} (r : Result S A) (f : A -> M S B) : Result S B :=
  match r with
  | (Return a, s1, l1) => prepend l1 (f a s1)
  | (Panicking v, s1, l1) => (Panicking v, s1, l1)
  end.

Definition bind {S A B : Type} (m : M S A) (f : A -> M S B) : M S B :=
  fun s => andThen (m s) f.

Notation "x <- m ;; k" := (bind m (fun x => k))
  (at level 20, m at level 99, k at level 200, only parsing).
Notation "m ;; k" := (bind m (fun _ => k))
  (at level 100, k at level 200, only parsing, right associativity).

(** [Logger.LogAttrs(ctx, level, msg, attrs...)]. *)
Definition LogAttrs {S : Type} (level : slog.Level) (msg : string)
    (attrs : list slog.Attr) : M S unit :=
  fun s => (Return tt, s, [slog.mkRecord level msg attrs]).

(** Calling a func value that may be nil. *)
Definition nilDereference : any :=
  AnyError "runtime error: invalid memory address or nil pointer dereference".

Definition isNil {A : Type} (f : option A) : bool :=
  match f with
  | Some _ => false
  | None => true
  end.

Definition call {S A : Type} (f : option (M S A)) : M S A :=
  match f with
  | Some g => g
  | None => panic nilDereference
  end.

(** [defer func() { if err := recover(); err != nil { h err } }(); body]:
    the deferred function always runs; [recover] yields the panic value when
    the body is panicking (and stops the panic) and nil otherwise.  Since
    Go 1.21, which [log/slog] requires, [panic(nil)] carries a non-nil
    [*runtime.PanicNilError], so a recovered value is never nil. *)
Definition recover_with {S : Type} (h : any -> M S unit) (body : M S unit) : M S unit :=
  fun s =>
    match body s with
    | (Return tt, s1, l1) => (Return tt, s1, l1)
    | (Panicking err, s1, l1) => prepend l1 (h err s1)
    end.

(** ** regexp: the interface the middlewares use *)

(** [regexp.MustCompile] panics on a pattern it rejects ([None] here);
    [Regexp.MatchString] reports whether the text contains a match. *)
Class RegexpLib : Type := {
  Regexp : Type;
  MustCompile : string -> option Regexp;
  MatchString : Regexp -> string -> bool
}.

Definition regexp_MustCompile `{RegexpLib} (expr : string) : Outcome Regexp :=
  match MustCompile expr with
  | Some re => Return re
  | None => Panicking (AnyString ("regexp: Compile(" ++ expr ++ ")"))
  end.

(** [fmt.Sprintf("%d", code)]. *)
Definition Sprintf_d (code : Z) : string := NilZero.string_of_int (Z.to_int code).

(** ** uuid *)

Module uuid.

(** A UUID is 16 bytes, kept as a 128-bit number, first byte most significant. *)
Definition UUID : Type := N.

(** [NewRandom]: 16 random bytes with the version (4) and the variant
    (RFC 4122) stamped on bytes 6 and 8. *)
Definition stamp (random : N) : UUID :=
  let r := N.land random (N.ones 128) in
  let r := N.lor (N.land r (N.lnot (N.shiftl 0xf0 72) 128)) (N.shiftl 0x40 72) in
  N.lor (N.land r (N.lnot (N.shiftl 0xc0 56) 128)) (N.shiftl 0x80 56).

Definition hexdigit (n : N) : ascii :=
  match n with
  | 0 => "0" | 1 => "1" | 2 => "2" | 3 => "3" | 4 => "4" | 5 => "5" | 6 => "6" | 7 => "7"
  | 8 => "8" | 9 => "9" | 10 => "a" | 11 => "b" | 12 => "c" | 13 => "d" | 14 => "e"
  | _ => "f"
  end%N%char.

(** The [digits] lowest hexadecimal digits of [v >> (4 * skip)], most
    significant first, followed by [tail]. *)
Fixpoint hex (digits : nat) (skip : N) (v : N) (tail : string) : string :=
  match digits with
  | O => tail
  | S d =>
      hex d (skip + 1) v
        (String.String (hexdigit (N.land (N.shiftr v (4 * skip)) 15)) tail)
  end.

(** [UUID.String]: xxxxxxxx-xxxx-xxxx-xxxx-xxxxxxxxxxxx. *)
Definition String (u : UUID) : string :=
  hex 8 24 u (String.String "-" (hex 4 20 u (String.String "-" (hex 4 16 u
    (String.String "-" (hex 4 12 u (String.String "-" (hex 12 0 u ""))))))))%N.

End uuid.

(** ** gin: the request context *)

Module gin.

(** An [*http.Request], with what the middlewares and
    [httputil.DumpRequest] read of it.  [Header] lists the header lines,
    canonical key first, in the order [Header.WriteSubset] writes them
    (sorted by key). *)
Record Request : Type := mkRequest {
  Method : string;
  Path : string;                       (* Request.URL.Path *)
  RequestURI : string;                 (* Request.RequestURI *)
  URLRequestURI : string;              (* Request.URL.RequestURI() *)
  ProtoMajor : Z;
  ProtoMinor : Z;
  Host : string;
  URLHost : string;                    (* Request.URL.Host *)
  TransferEncoding : list string;
  Header : list (string * string);
  ClientIP : string                    (* what Context.ClientIP() resolves to *)
}.

(** [Header.Get(key)]: the first value of the key, or the empty string. *)
Definition Get (h : list (string * string)) (key : string) : string :=
  match find (fun kv : string * string => String.eqb kv.1 key) h with
  | Some kv => kv.2
  | None => ""
  end.

(** [Request.UserAgent()]. *)
Definition UserAgent (r : Request) : string := Get (Header r) "User-Agent".

(** The context with its response writer: [written] tells whether the
    status line and the headers have gone out ([Writer.Written()]). *)
Record Context : Type := mkContext {
  request : Request;
  status : Z;                    (* Writer.Status() *)
  header : gmap string string;   (* Writer.Header() *)
  aborted : bool;
  written : bool
}.

End gin.

(** What a request handler can reach: the context, the wall clock (in
    nanoseconds) and the random source the UUIDs are drawn from. *)
Record World : Type := mkWorld {
  ctx : gin.Context;
  clock : Z;
  entropy : nat -> N;
  drawn : nat;
  stack : string   (* what debug.Stack() would print for this goroutine *)
}.

(** The store of a middleware's handler: the configuration its closure
    captured (a [*Config]) next to the world. *)
Record Store (C : Type) : Type := mkStore { config : C; world : World }.
Arguments mkStore {C} config world.
Arguments config {C} s.
Arguments world {C} s.

(** Code that has no reference to the configuration (the downstream chain,
    the callbacks, the framework) runs on the world alone. *)
Definition lift {C A : Type} (m : M World A) : M (Store C) A :=
  fun s =>
    match m (world s) with
    | (r, w, l) => (r, mkStore (config s) w, l)
    end.

(** Reading a field of the captured configuration. *)
Definition field {C A : Type} (f : C -> A) : M (Store C) A :=
  fun s => (Return (f (config s)), s, []).

Definition set_header (k v : string) (c : gin.Context) : gin.Context :=
  gin.mkContext (gin.request c) (gin.status c)
    (if decide (v = "") then delete k (gin.header c) else <[k := v]> (gin.header c))
    (gin.aborted c) (gin.written c).

(** [Writer.WriteHeader(code)]: records the status to send, unless the
    response has been written already (gin then only prints a warning and
    keeps the status that went out). *)
Definition WriteHeader (code : Z) (c : gin.Context) : gin.Context :=
  gin.mkContext (gin.request c)
    (if (0 <? code)%Z && negb (gin.status c =? code)%Z
     then (if gin.written c then gin.status c else code)
     else gin.status c)
    (gin.header c) (gin.aborted c) (gin.written c).

(** [Writer.WriteHeaderNow()]: sends the status line and the headers if
    they have not gone out yet. *)
Definition WriteHeaderNow (c : gin.Context) : gin.Context :=
  gin.mkContext (gin.request c) (gin.status c) (gin.header c) (gin.aborted c) true.

(** [c.Abort()]. *)
Definition set_aborted (c : gin.Context) : gin.Context :=
  gin.mkContext (gin.request c) (gin.status c) (gin.header c) true (gin.written c).

Definition with_ctx (f : gin.Context -> gin.Context) : M World unit :=
  fun w => (Return tt, mkWorld (f (ctx w)) (clock w) (entropy w) (drawn w) (stack w), []).

Definition read {A : Type} (f : World -> A) : M World A :=
  fun w => (Return (f w), w, []).

(** [c.Header(key, value)]: sets the response header, or removes it when
    the value is empty. *)
Definition c_Header (key value : string) : M World unit := with_ctx (set_header key value).

(** [c.AbortWithStatus(code)]: [c.Status(code)], [c.Writer.WriteHeaderNow()]
    and [c.Abort()]. *)
Definition c_AbortWithStatus (code : Z) : M World unit :=
  with_ctx (fun c => set_aborted (WriteHeaderNow (WriteHeader code c))).

(** [c.JSON(code, obj)]: [c.Status(code)], the Content-Type header when
    none is set, and the body (or, for a status that allows none, the
    headers alone); either way the response is written. *)
Definition c_JSON (code : Z) : M World unit :=
  with_ctx (fun c =>
    let c := WriteHeader code c in
    let c := match gin.header c !! "Content-Type" with
             | Some _ => c
             | None => set_header "Content-Type" "application/json; charset=utf-8" c
             end in
    WriteHeaderNow c).

(** [time.Now()] and [time.Since(start)]. *)
Definition time_Now : M World Z := read clock.
Definition time_Since (start : Z) : M World Z := read (fun w => clock w - start).

(** [uuid.New().String()]: one draw from the random source. *)
Definition uuid_New_String : M World string :=
  fun w =>
    (Return (uuid.String (uuid.stamp (entropy w (drawn w)))),
     mkWorld (ctx w) (clock w) (entropy w) (S (drawn w)) (stack w), []).

(** [httputil.DumpRequest(req, false)]: the request line, the Host line
    unless the request URI is absolute or no host is known, the
    Transfer-Encoding line, the header lines other than Host,
    Transfer-Encoding and Trailer, and an empty line, each ended by CR LF.
    Without the body nothing in it fails, so the error the caller drops is
    always nil. *)
Definition CRLF : string := String.String "013" (String.String "010" "").

Definition hasPrefix (prefix s : string) : bool := String.prefix prefix s.

Fixpoint join (sep : string) (l : list string) : string :=
  match l with
  | [] => ""
  | [x] => x
  | x :: rest => x ++ sep ++ join sep rest
  end.

Definition excludedFromDump (key : string) : bool :=
  String.eqb key "Host" || String.eqb key "Transfer-Encoding" || String.eqb key "Trailer".

Fixpoint headerLines (h : list (string * string)) : string :=
  match h with
  | [] => ""
  | (k, v) :: rest =>
      (if excludedFromDump k then "" else k ++ ": " ++ v ++ CRLF) ++ headerLines rest
  end.

Definition DumpRequest (r : gin.Request) : string :=
  let reqURI := if String.eqb (gin.RequestURI r) "" then gin.URLRequestURI r
                else gin.RequestURI r in
  let method := if String.eqb (gin.Method r) "" then "GET" else gin.Method r in
  let absRequestURI := hasPrefix "http://" (gin.RequestURI r) ||
                       hasPrefix "https://" (gin.RequestURI r) in
  let host := if String.eqb (gin.Host r) "" then gin.URLHost r else gin.Host r in
  method ++ " " ++ reqURI ++ " HTTP/" ++ Sprintf_d (gin.ProtoMajor r) ++ "."
    ++ Sprintf_d (gin.ProtoMinor r) ++ CRLF
    ++ (if absRequestURI || String.eqb host "" then "" else "Host: " ++ host ++ CRLF)
    ++ (match gin.TransferEncoding r with
        | [] => ""
        | _ :: _ => "Transfer-Encoding: " ++ join "," (gin.TransferEncoding r) ++ CRLF
        end)
    ++ headerLines (gin.Header r)
    ++ CRLF.

(** ** A reference regexp engine

    The fragment of RE2 syntax that the package's constants and tests use:
    literals, [.], [^] and [$], bracket classes with ranges, backslash
    escapes, and the postfix operators [*], [+], [?] and [{n}].  Patterns
    outside the fragment are rejected.  It instantiates [RegexpLib] where a
    statement is evaluated on concrete patterns. *)

Module re2.

Inductive Node : Type :=
| Empty
| Lit (c : ascii)
| AnyChar
| Class (negated : bool) (ranges : list (ascii * ascii))
| BeginText
| EndText
| Cat (a b : Node)
| Alt (a b : Node)
| Star (a : Node).

Definition isDigit (c : ascii) : bool :=
  (48 <=? nat_of_ascii c)%nat && (nat_of_ascii c <=? 57)%nat.

Definition isLetter (c : ascii) : bool :=
  ((65 <=? nat_of_ascii c)%nat && (nat_of_ascii c <=? 90)%nat) ||
  ((97 <=? nat_of_ascii c)%nat && (nat_of_ascii c <=? 122)%nat).

Definition eqc (c d : ascii) : bool := Ascii.eqb c d.

(** The items of a bracket class, up to the closing bracket. *)
Fixpoint parseClass (s : list ascii) (acc : list (ascii * ascii))
    : option (list (ascii * ascii) * list ascii) :=
  match s with
  | [] => None
  | c :: rest =>
      if eqc c "]" then Some (rev acc, rest)
      else
        match rest with
        | d :: hi :: rest' =>
            if eqc d "-" && negb (eqc hi "]")
            then if (nat_of_ascii c <=? nat_of_ascii hi)%nat
                 then parseClass rest' ((c, hi) :: acc)
                 else None
            else parseClass rest ((c, c) :: acc)
        | _ => parseClass rest ((c, c) :: acc)
        end
  end.

(** The count of [{n}], after the opening brace. *)
Fixpoint parseCount (s : list ascii) (acc : option nat) : option (nat * list ascii) :=
  match s with
  | [] => None
  | c :: rest =>
      if eqc c "}" then match acc with Some n => Some (n, rest) | None => None end
      else if isDigit c
      then parseCount rest (Some (10 * default 0%nat acc + (nat_of_ascii c - 48))%nat)
      else None
  end.

Fixpoint repeat (a : Node) (n : nat) : Node :=
  match n with
  | O => Empty
  | S n' => Cat a (repeat a n')
  end.

Definition parseAtom (c : ascii) (rest : list ascii) : option (Node * list ascii) :=
  if eqc c "^" then Some (BeginText, rest)
  else if eqc c "$" then Some (EndText, rest)
  else if eqc c "." then Some (AnyChar, rest)
  else if eqc c "[" then
    match rest with
    | d :: rest' =>
        if eqc d "^"
        then match parseClass rest' [] with
             | Some (rs, rest'') => Some (Class true rs, rest'')
             | None => None
             end
        else match parseClass rest [] with
             | Some (rs, rest'') => Some (Class false rs, rest'')
             | None => None
             end
    | [] => None
    end
  else if eqc c "\" then
    match rest with
    | d :: rest' =>
        if eqc d "d" then Some (Class false [("0", "9")]%char, rest')
        else if isDigit d || isLetter d then None
        else Some (Lit d, rest')
    | [] => None
    end
  else if eqc c "*" || eqc c "+" || eqc c "?" || eqc c "{" || eqc c "(" || eqc c ")" || eqc c "|"
  then None
  else Some (Lit c, rest).

Definition parseRepeat (a : Node) (s : list ascii) : option (Node * list ascii) :=
  match s with
  | c :: rest =>
      if eqc c "*" then Some (Star a, rest)
      else if eqc c "+" then Some (Cat a (Star a), rest)
      else if eqc c "?" then Some (Alt a Empty, rest)
      else if eqc c "{" then
        match parseCount rest None with
        | Some (n, rest') => Some (repeat a n, rest')
        | None => None
        end
      else Some (a, s)
  | [] => Some (a, s)
  end.

Fixpoint parse (fuel : nat) (s : list ascii) : option Node :=
  match fuel with
  | O => None
  | S fuel' =>
      match s with
      | [] => Some Empty
      | c :: rest =>
          match parseAtom c rest with
          | Some (a, rest1) =>
              match parseRepeat a rest1 with
              | Some (q, rest2) =>
                  match parse fuel' rest2 with
                  | Some r => Some (Cat q r)
                  | None => None
                  end
              | None => None
              end
          | None => None
          end
      end
  end.

Definition MustCompile (expr : string) : option Node :=
  let s := list_ascii_of_string expr in
  parse (S (length s)) s.

(** A position in the text: the offset reached and what is left to read. *)
Definition Pos : Type := (nat * list ascii)%type.

Definition inClass (negated : bool) (ranges : list (ascii * ascii)) (c : ascii) : bool :=
  xorb negated
    (existsb (fun r : ascii * ascii =>
                (nat_of_ascii r.1 <=? nat_of_ascii c)%nat &&
                (nat_of_ascii c <=? nat_of_ascii r.2)%nat) ranges).

Definition advance (ok : ascii -> bool) (p : Pos) : list Pos :=
  match p.2 with
  | c :: rest => if ok c then [(S p.1, rest)] else []
  | [] => []
  end.

(** The positions at which a match of [r] that starts at [p] can end. *)
Fixpoint ends (r : Node) (p : Pos) : list Pos :=
  match r with
  | Empty => [p]
  | Lit c => advance (eqc c) p
  | AnyChar => advance (fun c => negb (eqc c "010")) p
  | Class negated ranges => advance (inClass negated ranges) p
  | BeginText => if (p.1 =? 0)%nat then [p] else []
  | EndText => match p.2 with [] => [p] | _ :: _ => [] end
  | Cat a b => flat_map (ends b) (ends a p)
  | Alt a b => ends a p ++ ends b p
  | Star a =>
      (fix iter (fuel : nat) (p : Pos) {struct fuel} : list Pos :=
         p :: match fuel with
              | O => []
              | S fuel' =>
                  flat_map (fun q : Pos => if (q.1 <=? p.1)%nat then [] else iter fuel' q)
                    (ends a p)
              end) (S (length p.2)) p
  end.

Fixpoint starts (offset : nat) (s : list ascii) : list Pos :=
  (offset, s) :: match s with
                 | [] => []
                 | _ :: rest => starts (S offset) rest
                 end.

Definition MatchString (re : Node) (s : string) : bool :=
  existsb (fun p => negb (forallb (fun _ => false) (ends re p)))
    (starts 0 (list_ascii_of_string s)).

End re2.

#[export] Instance re2_lib : RegexpLib := {|
  Regexp := re2.Node;
  MustCompile := re2.MustCompile;
  MatchString := re2.MatchString
|}.

(** * Package logger *)

Module logger.
Section Logger.
Context `{RegexpLib}.

(** HTTP response codes groups regex defined in the RFC 9110. *)
Definition HTTPInformationalRegex : string := "^1[0-9]{2}$".
Definition HTTPSuccessfulRegex : string := "^2[0-9]{2}$".
Definition HTTPRedirectionRegex : string := "^3[0-9]{2}$".
Definition HTTPClientErrorRegex : string := "^4[0-9]{2}$".
Definition HTTPServerErrorRegex : string := "^5[0-9]{2}$".

(** [func(c *gin.Context) []slog.Attr] and
    [func(c *gin.Context, logger *slog.Logger)]; a nil func is [None]. *)
Definition CustomFields : Type := M World (list slog.Attr).
Definition CustomLogger : Type := M World unit.

Record httpLevel : Type := mkhttpLevel {
  level : slog.Level;
  regexp : Regexp
}.

Definition newhttpLevel (expr : string) (level : slog.Level) : Outcome httpLevel :=
  try re := regexp_MustCompile expr in
  Return (mkhttpLevel level re).

Definition match_ (h : httpLevel) (code : Z) : bool :=
  MatchString (regexp h) (Sprintf_d code).

Record Config : Type := mkConfig {
  defaultLevel : slog.Level;
  httpLevels : list httpLevel;
  whitelistPaths : list Regexp;
  blacklistPaths : list Regexp;
  customLogger : option CustomLogger;
  customFields : option CustomFields;
  ipField : bool;
  statusField : bool;
  methodField : bool;
  pathField : bool;
  userAgentField : bool;
  latencyField : bool;
  requestIDField : bool
}.

Definition newConfig : Outcome Config :=
  try l1 := newhttpLevel HTTPInformationalRegex slog.LevelInfo in
  try l2 := newhttpLevel HTTPSuccessfulRegex slog.LevelInfo in
  try l3 := newhttpLevel HTTPRedirectionRegex slog.LevelInfo in
  try l4 := newhttpLevel HTTPClientErrorRegex slog.LevelWarn in
  try l5 := newhttpLevel HTTPServerErrorRegex slog.LevelError in
  Return {|
    defaultLevel := slog.LevelInfo;
    httpLevels := [l1; l2; l3; l4; l5];
    whitelistPaths := [];
    blacklistPaths := [];
    customLogger := None;
    customFields := None;
    ipField := true;
    statusField := true;
    methodField := true;
    pathField := true;
    userAgentField := true;
    latencyField := true;
    requestIDField := true
  |}.

Definition isDefaultFields (c : Config) : bool :=
  ipField c || statusField c || methodField c || pathField c ||
  userAgentField c || latencyField c || requestIDField c.

Definition validate (c : Config) : Outcome unit :=
  if negb (length (whitelistPaths c) =? 0)%nat && negb (length (blacklistPaths c) =? 0)%nat
  then Panicking (AnyString "whitelist and blacklist can't be used together")
  else if negb (isDefaultFields c) && isNil (customFields c)
  then Panicking (AnyString "no fields to log")
  else Return tt.

(** Assignments to the fields of a [*Config]. *)
Definition set_defaultLevel (v : slog.Level) (c : Config) : Config :=
  mkConfig v (httpLevels c) (whitelistPaths c) (blacklistPaths c) (customLogger c)
    (customFields c) (ipField c) (statusField c) (methodField c) (pathField c)
    (userAgentField c) (latencyField c) (requestIDField c).
Definition set_httpLevels (v : list httpLevel) (c : Config) : Config :=
  mkConfig (defaultLevel c) v (whitelistPaths c) (blacklistPaths c) (customLogger c)
    (customFields c) (ipField c) (statusField c) (methodField c) (pathField c)
    (userAgentField c) (latencyField c) (requestIDField c).
Definition set_whitelistPaths (v : list Regexp) (c : Config) : Config :=
  mkConfig (defaultLevel c) (httpLevels c) v (blacklistPaths c) (customLogger c)
    (customFields c) (ipField c) (statusField c) (methodField c) (pathField c)
    (userAgentField c) (latencyField c) (requestIDField c).
Definition set_blacklistPaths (v : list Regexp) (c : Config) : Config :=
  mkConfig (defaultLevel c) (httpLevels c) (whitelistPaths c) v (customLogger c)
    (customFields c) (ipField c) (statusField c) (methodField c) (pathField c)
    (userAgentField c) (latencyField c) (requestIDField c).
Definition set_customLogger (v : option CustomLogger) (c : Config) : Config :=
  mkConfig (defaultLevel c) (httpLevels c) (whitelistPaths c) (blacklistPaths c) v
    (customFields c) (ipField c) (statusField c) (methodField c) (pathField c)
    (userAgentField c) (latencyField c) (requestIDField c).
Definition set_customFields (v : option CustomFields) (c : Config) : Config :=
  mkConfig (defaultLevel c) (httpLevels c) (whitelistPaths c) (blacklistPaths c)
    (customLogger c) v (ipField c) (statusField c) (methodField c) (pathField c)
    (userAgentField c) (latencyField c) (requestIDField c).
Definition set_ipField (v : bool) (c : Config) : Config :=
  mkConfig (defaultLevel c) (httpLevels c) (whitelistPaths c) (blacklistPaths c)
    (customLogger c) (customFields c) v (statusField c) (methodField c) (pathField c)
    (userAgentField c) (latencyField c) (requestIDField c).
Definition set_statusField (v : bool) (c : Config) : Config :=
  mkConfig (defaultLevel c) (httpLevels c) (whitelistPaths c) (blacklistPaths c)
    (customLogger c) (customFields c) (ipField c) v (methodField c) (pathField c)
    (userAgentField c) (latencyField c) (requestIDField c).
Definition set_methodField (v : bool) (c : Config) : Config :=
  mkConfig (defaultLevel c) (httpLevels c) (whitelistPaths c) (blacklistPaths c)
    (customLogger c) (customFields c) (ipField c) (statusField c) v (pathField c)
    (userAgentField c) (latencyField c) (requestIDField c).
Definition set_pathField (v : bool) (c : Config) : Config :=
  mkConfig (defaultLevel c) (httpLevels c) (whitelistPaths c) (blacklistPaths c)
    (customLogger c) (customFields c) (ipField c) (statusField c) (methodField c) v
    (userAgentField c) (latencyField c) (requestIDField c).
Definition set_userAgentField (v : bool) (c : Config) : Config :=
  mkConfig (defaultLevel c) (httpLevels c) (whitelistPaths c) (blacklistPaths c)
    (customLogger c) (customFields c) (ipField c) (statusField c) (methodField c)
    (pathField c) v (latencyField c) (requestIDField c).
Definition set_latencyField (v : bool) (c : Config) : Config :=
  mkConfig (defaultLevel c) (httpLevels c) (whitelistPaths c) (blacklistPaths c)
    (customLogger c) (customFields c) (ipField c) (statusField c) (methodField c)
    (pathField c) (userAgentField c) v (requestIDField c).
Definition set_requestIDField (v : bool) (c : Config) : Config :=
  mkConfig (defaultLevel c) (httpLevels c) (whitelistPaths c) (blacklistPaths c)
    (customLogger c) (customFields c) (ipField c) (statusField c) (methodField c)
    (pathField c) (userAgentField c) (latencyField c) v.

(** The exported options.  The fields of [Config] are unexported, so these
    are the only ways a caller has to change one.  [WithHTTPLevels] takes a
    Go map: its entries are listed here in the order [range] yields them. *)
Inductive ConfigOption : Type :=
| WithDefaultLevel (level : slog.Level)
| WithHTTPLevels (httpLevels : list (string * slog.Level))
| WithWhitelistPath (whitelistPath : list string)
| WithBlacklistPath (blacklistPath : list string)
| WithCustomLogger (customLogger : option CustomLogger)
| WithCustomFields (customFields : option CustomFields)
| WithoutDefaultFields
| WithoutIP
| WithoutStatus
| WithoutMethod
| WithoutPath
| WithoutUserAgent
| WithoutLatency
| WithoutRequestID.

(** [for k, v := range httpLevels { c.httpLevels = append(c.httpLevels, newhttpLevel(k, v)) }] *)
Fixpoint rangeHTTPLevels (kvs : list (string * slog.Level)) (c : Config) : Outcome Config :=
  match kvs with
  | [] => Return c
  | (k, v) :: rest =>
      try h := newhttpLevel k v in
      rangeHTTPLevels rest (set_httpLevels (httpLevels c ++ [h]) c)
  end.

(** [for _, v := range whitelistPath { c.whitelistPaths = append(c.whitelistPaths, regexp.MustCompile(v)) }] *)
Fixpoint rangeWhitelistPath (vs : list string) (c : Config) : Outcome Config :=
  match vs with
  | [] => Return c
  | v :: rest =>
      try re := regexp_MustCompile v in
      rangeWhitelistPath rest (set_whitelistPaths (whitelistPaths c ++ [re]) c)
  end.

Fixpoint rangeBlacklistPath (vs : list string) (c : Config) : Outcome Config :=
  match vs with
  | [] => Return c
  | v :: rest =>
      try re := regexp_MustCompile v in
      rangeBlacklistPath rest (set_blacklistPaths (blacklistPaths c ++ [re]) c)
  end.

(** Calling an option on the configuration: [opt(config)]. *)
Definition apply (opt : ConfigOption) (c : Config) : Outcome Config :=
  match opt with
  | WithDefaultLevel level => Return (set_defaultLevel level c)
  | WithHTTPLevels httpLevels => rangeHTTPLevels httpLevels (set_httpLevels [] c)
  | WithWhitelistPath whitelistPath => rangeWhitelistPath whitelistPath c
  | WithBlacklistPath blacklistPath => rangeBlacklistPath blacklistPath c
  | WithCustomLogger customLogger => Return (set_customLogger customLogger c)
  | WithCustomFields customFields => Return (set_customFields customFields c)
  | WithoutDefaultFields =>
      Return (set_requestIDField false (set_latencyField false (set_userAgentField false
        (set_pathField false (set_methodField false (set_statusField false
        (set_ipField false c)))))))
  | WithoutIP => Return (set_ipField false c)
  | WithoutStatus => Return (set_statusField false c)
  | WithoutMethod => Return (set_methodField false c)
  | WithoutPath => Return (set_pathField false c)
  | WithoutUserAgent => Return (set_userAgentField false c)
  | WithoutLatency => Return (set_latencyField false c)
  | WithoutRequestID => Return (set_requestIDField false c)
  end.

(** [for _, opt := range opts { opt(config) }] *)
Fixpoint rangeOpts (opts : list ConfigOption) (c : Config) : Outcome Config :=
  match opts with
  | [] => Return c
  | opt :: rest => try c' := apply opt c in rangeOpts rest c'
  end.

(** *** The handler returned by [New] *)

Definition requestPath : M World string := read (fun w => gin.Path (gin.request (ctx w))).
Definition writerStatus : M World Z := read (fun w => gin.status (ctx w)).

(** [for _, v := range config.whitelistPaths { if !v.MatchString(c.Request.URL.Path) { return } }];
    the result tells whether the handler returned from inside the loop. *)
Fixpoint rangeWhitelistPaths (vs : list Regexp) : M World bool :=
  match vs with
  | [] => ret false
  | v :: rest =>
      path <- requestPath;;
      if negb (MatchString v path) then ret true else rangeWhitelistPaths rest
  end.

(** [for _, v := range config.blacklistPaths { if v.MatchString(c.Request.URL.Path) { return } }] *)
Fixpoint rangeBlacklistPaths (vs : list Regexp) : M World bool :=
  match vs with
  | [] => ret false
  | v :: rest =>
      path <- requestPath;;
      if MatchString v path then ret true else rangeBlacklistPaths rest
  end.

(** The block that fills [attributes], from [attributes := []slog.Attr{}]
    to the custom fields. *)
Definition assemble (start : Z) (requestID : string) : M (Store Config) (list slog.Attr) :=
  let attributes := [] in
  b <- field ipField;;
  attributes <- (if b : bool
                 then ip <- lift (read (fun w => gin.ClientIP (gin.request (ctx w))));;
                      ret (attributes ++ [slog.String "ip" ip])
                 else ret attributes);;
  b <- field statusField;;
  attributes <- (if b : bool
                 then code <- lift writerStatus;;
                      ret (attributes ++ [slog.Int "status" code])
                 else ret attributes);;
  b <- field methodField;;
  attributes <- (if b : bool
                 then m <- lift (read (fun w => gin.Method (gin.request (ctx w))));;
                      ret (attributes ++ [slog.String "method" m])
                 else ret attributes);;
  b <- field pathField;;
  attributes <- (if b : bool
                 then p <- lift requestPath;;
                      ret (attributes ++ [slog.String "path" p])
                 else ret attributes);;
  b <- field userAgentField;;
  attributes <- (if b : bool
                 then ua <- lift (read (fun w => gin.UserAgent (gin.request (ctx w))));;
                      ret (attributes ++ [slog.String "user-agent" ua])
                 else ret attributes);;
  b <- field latencyField;;
  attributes <- (if b : bool
                 then d <- lift (time_Since start);;
                      ret (attributes ++ [slog.Duration "latency" d])
                 else ret attributes);;
  b <- field requestIDField;;
  attributes <- (if b : bool
                 then ret (attributes ++ [slog.String "request-id" requestID])
                 else ret attributes);;
  cf <- field customFields;;
  match cf with
  | Some f => extra <- lift f;; ret (attributes ++ extra)
  | None => ret attributes
  end.

(** [logger.LogAttrs(..., level, "Incoming request", attributes...)]
    followed by [config.customLogger(c, logger)]. *)
Definition logAt (lvl : slog.Level) (attributes : list slog.Attr) : M (Store Config) unit :=
  LogAttrs lvl "Incoming request" attributes;;
  cl <- field customLogger;;
  lift (call cl).

(** [for _, httpLevel := range config.httpLevels { if httpLevel.match(c.Writer.Status()) { ...; return } }]
    and, after the loop, the record at the default level. *)
Fixpoint logByStatus (hls : list httpLevel) (attributes : list slog.Attr) : M (Store Config) unit :=
  match hls with
  | [] =>
      lvl <- field defaultLevel;;
      logAt lvl attributes
  | httpLevel :: rest =>
      code <- lift writerStatus;;
      if match_ httpLevel code
      then logAt (level httpLevel) attributes
      else logByStatus rest attributes
  end.

(** The whitelist and blacklist checks; the result tells whether the
    handler returned from one of them. *)
Definition pathFiltered : M (Store Config) bool :=
  wl <- field whitelistPaths;;
  returned <- (if (0 <? length wl)%nat then lift (rangeWhitelistPaths wl) else ret false);;
  if returned : bool then ret true else
  bl <- field blacklistPaths;;
  if (0 <? length bl)%nat then lift (rangeBlacklistPaths bl) else ret false.

(** Everything the handler does after [c.Next()] has returned. *)
Definition afterNext (start : Z) (requestID : string) : M (Store Config) unit :=
  returned <- pathFiltered;;
  if returned : bool then ret tt else
  attributes <- assemble start requestID;;
  hls <- field httpLevels;;
  logByStatus hls attributes.

(** Everything the handler does before [c.Next()]. *)
Definition beforeNext : M (Store Config) (Z * string) :=
  start <- lift time_Now;;
  requestID <- lift uuid_New_String;;
  b <- field requestIDField;;
  (if b : bool then lift (c_Header "X-Request-ID" requestID) else ret tt);;
  ret (start, requestID).

(** The [gin.HandlerFunc]; [next] is the downstream chain run by [c.Next()]. *)
Definition handler (next : M World unit) : M (Store Config) unit :=
  started <- beforeNext;;
  lift next;;
  afterNext started.1 started.2.

(** [New(logger, opts...)]: the configuration the returned closure
    captures, or the panic raised while building it.  The closure's code is
    [handler]; the logger is the sink of the records. *)
Definition New (opts : list ConfigOption) : Outcome Config :=
  try config := newConfig in
  try config := rangeOpts opts config in
  try validated := validate config in
  Return config.

(** Serving one request with the handler of a middleware whose closure
    captured [config]. *)
Definition serve (config : Config) (next : M World unit) (w : World)
    : Result (Store Config) unit :=
  handler next (mkStore config w).

End Logger.
End logger.

(** * Package recovery *)

Module recovery.

(** [func(c *gin.Context) []slog.Attr] and [gin.RecoveryFunc]. *)
Definition CustomFields : Type := M World (list slog.Attr).
Definition RecoveryFunc : Type := any -> M World unit.

Record Config : Type := mkConfig {
  defaultLevel : slog.Level;
  customRecovery : option RecoveryFunc;
  customFields : option CustomFields;
  errorField : bool;
  requestField : bool;
  stackField : bool
}.

Definition StatusInternalServerError : Z := 500.

Definition newConfig : Config := {|
  defaultLevel := slog.LevelError;
  customRecovery := Some (fun err => c_AbortWithStatus StatusInternalServerError);
  customFields := None;
  errorField := true;
  requestField := true;
  stackField := true
|}.

Definition isDefaultFields (c : Config) : bool :=
  errorField c || requestField c || stackField c.

Definition validate (c : Config) : Outcome unit :=
  if negb (isDefaultFields c) && isNil (customFields c)
  then Panicking (AnyString "no fields to log")
  else Return tt.

Inductive ConfigOption : Type :=
| WithDefaultLevel (level : slog.Level)
| WithCustomRecovery (customRecovery : option RecoveryFunc)
| WithCustomFields (customFields : option CustomFields)
| WithoutDefaultFields
| WithoutError
| WithoutRequest
| WithoutStack.

(** Calling an option on the configuration: [opt(config)]. *)
Definition apply (opt : ConfigOption) (c : Config) : Config :=
  match opt with
  | WithDefaultLevel level =>
      mkConfig level (customRecovery c) (customFields c)
        (errorField c) (requestField c) (stackField c)
  | WithCustomRecovery customRecovery =>
      mkConfig (defaultLevel c) customRecovery (customFields c)
        (errorField c) (requestField c) (stackField c)
  | WithCustomFields customFields =>
      mkConfig (defaultLevel c) (customRecovery c) customFields
        (errorField c) (requestField c) (stackField c)
  | WithoutDefaultFields =>
      mkConfig (defaultLevel c) (customRecovery c) (customFields c) false false false
  | WithoutError =>
      mkConfig (defaultLevel c) (customRecovery c) (customFields c)
        false (requestField c) (stackField c)
  | WithoutRequest =>
      mkConfig (defaultLevel c) (customRecovery c) (customFields c)
        (errorField c) false (stackField c)
  | WithoutStack =>
      mkConfig (defaultLevel c) (customRecovery c) (customFields c)
        (errorField c) (requestField c) false
  end.

(** [for _, opt := range opts { opt(config) }] *)
Fixpoint rangeOpts (opts : list ConfigOption) (c : Config) : Config :=
  match opts with
  | [] => c
  | opt :: rest => rangeOpts rest (apply opt c)
  end.

(** The body of [if err := recover(); err != nil { ... }]. *)
Definition recovered (err : any) : M (Store Config) unit :=
  b <- field isDefaultFields;;
  httpRequest <- (if b : bool
                  then r <- lift (read (fun w => gin.request (ctx w)));;
                       ret (DumpRequest r)
                  else ret "");;
  let attributes := [] in
  b <- field errorField;;
  attributes <- (if b : bool
                 then ret (attributes ++ [slog.Any "error" err])
                 else ret attributes);;
  b <- field requestField;;
  attributes <- (if b : bool
                 then ret (attributes ++ [slog.String "request" httpRequest])
                 else ret attributes);;
  b <- field stackField;;
  attributes <- (if b : bool
                 then st <- lift (read stack);;
                      ret (attributes ++ [slog.String "stack" st])
                 else ret attributes);;
  cf <- field customFields;;
  attributes <- match cf with
                | Some f => extra <- lift f;; ret (attributes ++ extra)
                | None => ret attributes
                end;;
  lvl <- field defaultLevel;;
  LogAttrs lvl "Panic recovered" attributes;;
  cr <- field customRecovery;;
  lift (call (option_map (fun f : RecoveryFunc => f err) cr)).

(** The [gin.HandlerFunc]: the deferred recovery around [c.Next()]. *)
Definition handler (next : M World unit) : M (Store Config) unit :=
  recover_with recovered (lift next).

(** [New(logger, opts...)]: the configuration the returned closure
    captures, or the panic raised while building it. *)
Definition New (opts : list ConfigOption) : Outcome Config :=
  let config := newConfig in
  let config := rangeOpts opts config in
  try validated := validate config in
  Return config.

Definition serve (config : Config) (next : M World unit) (w : World)
    : Result (Store Config) unit :=
  handler next (mkStore config w).

End recovery.

(** * Fixtures of the packages' tests *)

Module fixture.

(** [http.NewRequest("GET", path, nil)] with the Content-Type and
    User-Agent headers, as the tests send it through [httptest]. *)
Definition request (path userAgent : string) : gin.Request :=
  gin.mkRequest "GET" path "" path 1 1 "" "" []
    [("Content-Type", "test"); ("User-Agent", userAgent)] "".

(** A fresh context (gin starts it with status 200) and a random source
    that yields the bytes behind the request id the tests expect. *)
Definition world (path userAgent : string) : World :=
  mkWorld (gin.mkContext (request path userAgent) 200 ∅ false false) 0
    (fun _ => 0x52fdfc072182654f163f5f0f9a621d72%N) 0 "goroutine 1 [running]:".

(** The route of the logger tests: [c.JSON(code, nil)]. *)
Definition JSON (code : Z) : M World unit := c_JSON code.

(** The route of the recovery tests: [panic("test")]. *)
Definition panics : M World unit := panic (AnyString "test").

(** A route that answers and then panics: [c.JSON(200, nil); panic("test")]. *)
Definition answersThenPanics : M World unit := JSON 200;; panics.

(** The configuration [logger.New(logger, opts...)] captures with the
    reference engine (all fields off when it panics instead). *)
Definition loggerConfig (opts : list logger.ConfigOption) : logger.Config :=
  match logger.New opts with
  | Return c => c
  | Panicking _ =>
      logger.mkConfig 0 [] [] [] None None false false false false false false false
  end.

(** The options of the tests "set HTTP level" and "whitelist and
    blacklist test1", and a whitelist of the two routes of the path tests. *)
Definition warnOn2xx : list logger.ConfigOption :=
  [logger.WithHTTPLevels [(logger.HTTPSuccessfulRegex, slog.LevelWarn)]].
Definition bothLists : list logger.ConfigOption :=
  [logger.WithWhitelistPath ["/test1"]; logger.WithBlacklistPath ["/test1"]].
Definition twoRoutes : list logger.ConfigOption :=
  [logger.WithWhitelistPath ["/test1"; "/test2"]].

(** The attributes of the test "default options", with the client address
    and the latency the fixture gives. *)
Definition testAttributes : list slog.Attr :=
  [slog.String "ip" ""; slog.Int "status" 200; slog.String "method" "GET";
   slog.String "path" "/test"; slog.String "user-agent" "test";
   slog.Duration "latency" 0;
   slog.String "request-id" "52fdfc07-2182-454f-963f-5f0f9a621d72"].

(** What the reference engine compiles a pattern to (the empty regex
    when it rejects the pattern). *)
Definition compiled (expr : string) : re2.Node :=
  match re2.MustCompile expr with
  | Some re => re
  | None => re2.Empty
  end.

(** The custom-fields callback of the tests: the Content-Type header the
    test requests carry. *)
Definition contentType : M World (list slog.Attr) :=
  ret [slog.String "content-type" "test"].

(** The configurations [recovery.New] captures for the tests "with custom
    fields with default fields" and for a nil recovery action. *)
Definition recoveryWithFields : recovery.Config :=
  recovery.rangeOpts [recovery.WithCustomFields (Some contentType)] recovery.newConfig.
Definition recoveryWithNilAction : recovery.Config :=
  recovery.rangeOpts [recovery.WithCustomRecovery None] recovery.newConfig.

End fixture.

(** * Definitions used to state the properties *)

(** [m] leaves the configuration of the store as it found it. *)
Definition keeps_config {C A : Type} (m : M (Store C) A) : Prop :=
  forall s, config (final (m s)) = config s.

(** The world in which the request logger starts the downstream chain
    when the request-id field is enabled: one UUID drawn, and its text in
    the X-Request-ID response header. *)
Definition requestIDOf (w : World) : string :=
  uuid.String (uuid.stamp (entropy w (drawn w))).

Definition withRequestID (w : World) : World :=
  mkWorld (set_header "X-Request-ID" (requestIDOf w) (ctx w))
    (clock w) (entropy w) (S (drawn w)) (stack w).

(** The world after [c.AbortWithStatus(code)]. *)
Definition abortedWith (code : Z) (w : World) : World :=
  mkWorld (set_aborted (WriteHeaderNow (WriteHeader code (ctx w))))
    (clock w) (entropy w) (drawn w) (stack w).

Section LoggerSpec.
Context `{RegexpLib}.

(** The level of the first rule of the configured list whose regex
    matches the decimal string of the status code, else the default level. *)
Definition firstMatchLevel (cfg : logger.Config) (code : Z) : slog.Level :=
  match find (fun rule => MatchString (logger.regexp rule) (Sprintf_d code))
          (logger.httpLevels cfg) with
  | Some rule => logger.level rule
  | None => logger.defaultLevel cfg
  end.

(** What the two path checks come to: a request is dropped when some
    whitelist regex does not match its path, or some blacklist regex does. *)
Definition filteredOut (cfg : logger.Config) (path : string) : bool :=
  negb (forallb (fun v => MatchString v path) (logger.whitelistPaths cfg)) ||
  existsb (fun v => MatchString v path) (logger.blacklistPaths cfg).

(** How many path regexes the two lists of a configuration hold. *)
Definition sizes (c : logger.Config) : nat * nat :=
  (length (logger.whitelistPaths c), length (logger.blacklistPaths c)).

End LoggerSpec.

(** ** Definitions for the properties of the rest of the code *)

(** The world after the request logger has drawn its UUID without
    touching the response (the request-id field is disabled). *)
Definition uuidDrawn (w : World) : World :=
  mkWorld (ctx w) (clock w) (entropy w) (S (drawn w)) (stack w).

(** A handler further down the chain, seen from the handler that calls
    [c.Next()]: its closure holds its own configuration [cfg]. *)
Definition downstream {C : Type} (cfg : C) (h : M (Store C) unit) : M World unit :=
  fun w => (outcome (h (mkStore cfg w)), world (final (h (mkStore cfg w))),
            records (h (mkStore cfg w))).

(** The default attributes of a recovery record, in the order the handler
    appends them. *)
Definition recoveryAttributes (cfg : recovery.Config) (err : any) (w : World)
    : list slog.Attr :=
  (if recovery.errorField cfg then [slog.Any "error" err] else []) ++
  (if recovery.requestField cfg
   then [slog.String "request" (DumpRequest (gin.request (ctx w)))] else []) ++
  (if recovery.stackField cfg then [slog.String "stack" (stack w)] else []).

(** The recovery action of a configuration, given the panic value. *)
Definition recoveryAction (cfg : recovery.Config) (err : any) : M World unit :=
  call (option_map (fun f : recovery.RecoveryFunc => f err) (recovery.customRecovery cfg)).

Section LoggerMoreSpec.
Context `{RegexpLib}.

(** The default attributes of a request record, in the order the handler
    appends them. *)
Definition loggerAttributes (cfg : logger.Config) (start : Z) (requestID : string)
    (w : World) : list slog.Attr :=
  (if logger.ipField cfg then [slog.String "ip" (gin.ClientIP (gin.request (ctx w)))] else []) ++
  (if logger.statusField cfg then [slog.Int "status" (gin.status (ctx w))] else []) ++
  (if logger.methodField cfg then [slog.String "method" (gin.Method (gin.request (ctx w)))] else []) ++
  (if logger.pathField cfg then [slog.String "path" (gin.Path (gin.request (ctx w)))] else []) ++
  (if logger.userAgentField cfg
   then [slog.String "user-agent" (gin.UserAgent (gin.request (ctx w)))] else []) ++
  (if logger.latencyField cfg then [slog.Duration "latency" (clock w - start)] else []) ++
  (if logger.requestIDField cfg then [slog.String "request-id" requestID] else []).

(** The regex patterns an option hands to [regexp.MustCompile]. *)
Definition patterns (opt : logger.ConfigOption) : list string :=
  match opt with
  | logger.WithHTTPLevels httpLevels => map fst httpLevels
  | logger.WithWhitelistPath whitelistPath => whitelistPath
  | logger.WithBlacklistPath blacklistPath => blacklistPath
  | _ => []
  end.

(** The seven field flags of a configuration. *)
Definition flags (c : logger.Config) : list bool :=
  [logger.ipField c; logger.statusField c; logger.methodField c; logger.pathField c;
   logger.userAgentField c; logger.latencyField c; logger.requestIDField c].

(** The level the doc comment of [New] gives to a status code between
    100 and 599. *)
Definition documentedLevel (code : Z) : slog.Level :=
  if (code <? 400)%Z then slog.LevelInfo
  else if (code <? 500)%Z then slog.LevelWarn
  else slog.LevelError.

End LoggerMoreSpec.

(** * Properties *)

(** ** Running computations *)

Section Running.
Context {S : Type}.

Lemma prepend_nil {A : Type} (r : Result S A) : prepend [] r = r.
Proof. destruct r as [[o s] l]. reflexivity. Qed.

Lemma prepend_prepend {A : Type} (l1 l2 : list slog.Record) (r : Result S A) :
  prepend l1 (prepend l2 r) = prepend (l1 ++ l2) r.
Proof. unfold prepend. cbn. now rewrite app_assoc. Qed.

Lemma bind_Return {A B : Type} (m : M S A) (f : A -> M S B) s a s1 l1 :
  m s = (Return a, s1, l1) -> bind m f s = prepend l1 (f a s1).
Proof. intros E. unfold bind. now rewrite E. Qed.

Lemma bind_Panicking {A B : Type} (m : M S A) (f : A -> M S B) s v s1 l1 :
  m s = (Panicking v, s1, l1) -> bind m f s = (Panicking v, s1, l1).
Proof. intros E. unfold bind. now rewrite E. Qed.

Lemma bind_pure {A B : Type} (m : M S A) (f : A -> M S B) s a :
  m s = (Return a, s, []) -> bind m f s = f a s.
Proof. intros E. rewrite (bind_Return _ _ _ _ _ _ E). apply prepend_nil. Qed.

End Running.

Lemma bind_field {C A B : Type} (g : C -> A) (f : A -> M (Store C) B) (s : Store C) :
  bind (field g) f s = f (g (config s)) s.
Proof. now apply bind_pure. Qed.

Lemma lift_read {C A : Type} (g : World -> A) (s : Store C) :
  lift (read g) s = (Return (g (world s)), s, []).
Proof. destruct s. reflexivity. Qed.

Lemma bind_lift_read {C A B : Type} (g : World -> A) (f : A -> M (Store C) B) (s : Store C) :
  bind (lift (read g)) f s = f (g (world s)) s.
Proof. apply bind_pure, lift_read. Qed.

(** ** The handlers never write to the captured configuration *)

Section Frame.
Context {C : Type}.

Lemma keeps_ret {A : Type} (a : A) : keeps_config (C:=C) (ret a).
Proof. intros s. reflexivity. Qed.

Lemma keeps_panic {A : Type} (v : any) : keeps_config (C:=C) (@panic _ A v).
Proof. intros s. reflexivity. Qed.

Lemma keeps_field {A : Type} (g : C -> A) : keeps_config (field g).
Proof. intros s. reflexivity. Qed.

Lemma keeps_lift {A : Type} (m : M World A) : keeps_config (C:=C) (lift m).
Proof. intros s. unfold lift. destruct (m (world s)) as [[o w] l]. reflexivity. Qed.

Lemma keeps_LogAttrs lvl msg attrs : keeps_config (C:=C) (LogAttrs lvl msg attrs).
Proof. intros s. reflexivity. Qed.

Lemma keeps_bind {A B : Type} (m : M (Store C) A) (f : A -> M (Store C) B) :
  keeps_config m -> (forall a, keeps_config (f a)) -> keeps_config (bind m f).
Proof.
  intros Hm Hf s. unfold bind, andThen.
  specialize (Hm s). destruct (m s) as [[[a | v] s1] l1]; cbn in *.
  - now rewrite Hf.
  - exact Hm.
Qed.

Lemma keeps_recover_with (h : any -> M (Store C) unit) (body : M (Store C) unit) :
  keeps_config body -> (forall err, keeps_config (h err)) ->
  keeps_config (recover_with h body).
Proof.
  intros Hb Hh s. unfold recover_with.
  specialize (Hb s). destruct (body s) as [[[[] | v] s1] l1]; cbn in *.
  - exact Hb.
  - now rewrite Hh.
Qed.

End Frame.

Create HintDb frame.
#[global] Hint Resolve keeps_ret keeps_panic keeps_field keeps_lift keeps_LogAttrs : frame.

(** One step of a frame proof: split a sequence, or decide a branch. *)
Ltac frame_step :=
  match goal with
  | |- keeps_config (bind _ _) => apply keeps_bind; [ | intros ? ]
  | |- keeps_config (if ?b then _ else _) => destruct b
  | |- keeps_config (match ?o with Some _ => _ | None => _ end) => destruct o
  | |- keeps_config _ => solve [ auto with frame ]
  end.
Ltac frame := repeat frame_step.

(** ** The request logger *)

Section LoggerProperties.
Context `{RegexpLib}.

Lemma logger_assemble_keeps start requestID :
  keeps_config (logger.assemble start requestID).
Proof. unfold logger.assemble. frame. Qed.

Lemma logger_logAt_keeps lvl attributes : keeps_config (logger.logAt lvl attributes).
Proof. unfold logger.logAt. frame. Qed.

Lemma logger_logByStatus_keeps hls attributes :
  keeps_config (logger.logByStatus hls attributes).
Proof.
  induction hls as [| h rest IH]; cbn [logger.logByStatus].
  - frame. apply logger_logAt_keeps.
  - frame. apply logger_logAt_keeps.
Qed.

Lemma logger_handler_keeps next : keeps_config (logger.handler next).
Proof.
  unfold logger.handler, logger.beforeNext, logger.afterNext, logger.pathFiltered.
  frame; first [ apply logger_assemble_keeps | apply logger_logByStatus_keeps ].
Qed.

End LoggerProperties.

Section LoggerLevels.
Context `{RegexpLib}.

Lemma rangeWhitelistPaths_all (vs : list Regexp) (w : World) :
  logger.rangeWhitelistPaths vs w
  = (Return (negb (forallb (fun v => MatchString v (gin.Path (gin.request (ctx w)))) vs)), w, []).
Proof.
  induction vs as [| v rest IH]; cbn [logger.rangeWhitelistPaths forallb].
  - reflexivity.
  - rewrite (bind_pure _ _ w (gin.Path (gin.request (ctx w)))) by reflexivity.
    destruct (MatchString v _); cbn [negb andb]; [ exact IH | reflexivity ].
Qed.

Lemma rangeBlacklistPaths_any (vs : list Regexp) (w : World) :
  logger.rangeBlacklistPaths vs w
  = (Return (existsb (fun v => MatchString v (gin.Path (gin.request (ctx w)))) vs), w, []).
Proof.
  induction vs as [| v rest IH]; cbn [logger.rangeBlacklistPaths existsb].
  - reflexivity.
  - rewrite (bind_pure _ _ w (gin.Path (gin.request (ctx w)))) by reflexivity.
    destruct (MatchString v _); cbn [orb]; [ reflexivity | exact IH ].
Qed.

Lemma lift_pure {C A : Type} (m : M World A) (s : Store C) a :
  m (world s) = (Return a, world s, []) -> lift m s = (Return a, s, []).
Proof. intros E. unfold lift. rewrite E. destruct s. reflexivity. Qed.

(** The two path checks only read the store, and drop the request exactly
    when [filteredOut] says so. *)
Lemma pathFiltered_run (s : Store logger.Config) :
  logger.pathFiltered s
  = (Return (filteredOut (config s) (gin.Path (gin.request (ctx (world s))))), s, []).
Proof.
  unfold logger.pathFiltered, filteredOut.
  rewrite bind_field.
  set (path := gin.Path (gin.request (ctx (world s)))).
  destruct (logger.whitelistPaths (config s)) as [| v wl] eqn:Ewl.
  - cbn [length Nat.ltb Nat.leb forallb negb orb].
    rewrite (bind_pure _ _ s false) by reflexivity.
    rewrite bind_field.
    destruct (logger.blacklistPaths (config s)) as [| b bl] eqn:Ebl.
    + reflexivity.
    + change ((0 <? length (b :: bl))%nat) with true. cbv iota.
      apply lift_pure, rangeBlacklistPaths_any.
  - change ((0 <? length (v :: wl))%nat) with true. cbv iota.
    rewrite (bind_pure _ _ s (negb (forallb (fun v => MatchString v path) (v :: wl))))
      by apply lift_pure, rangeWhitelistPaths_all.
    destruct (negb (forallb _ (v :: wl))); cbn [orb].
    + reflexivity.
    + rewrite bind_field.
      destruct (logger.blacklistPaths (config s)) as [| b bl] eqn:Ebl.
      * reflexivity.
      * change ((0 <? length (b :: bl))%nat) with true. cbv iota.
        apply lift_pure, rangeBlacklistPaths_any.
Qed.

(** The loop over the rules logs at the level of the first rule that
    matches, and at the default level when it falls through. *)
Lemma logByStatus_run (hls : list logger.httpLevel) attributes (s : Store logger.Config) :
  logger.logByStatus hls attributes s
  = logger.logAt
      (match find (fun rule => MatchString (logger.regexp rule)
                                 (Sprintf_d (gin.status (ctx (world s))))) hls with
       | Some rule => logger.level rule
       | None => logger.defaultLevel (config s)
       end) attributes s.
Proof.
  induction hls as [| h rest IH]; cbn [logger.logByStatus find].
  - now rewrite bind_field.
  - unfold logger.writerStatus. rewrite bind_lift_read.
    unfold logger.match_. destruct (MatchString (logger.regexp h) _); [ reflexivity | exact IH ].
Qed.

Lemma logAt_records lvl attributes (s : Store logger.Config) :
  records (logger.logAt lvl attributes s)
  = slog.mkRecord lvl "Incoming request" attributes
      :: records (lift (call (logger.customLogger (config s))) s).
Proof. reflexivity. Qed.

(** Whenever the handler reaches the logging statement with no custom
    logger configured, the call of the nil func panics. *)
Lemma logAt_without_customLogger lvl attributes (s : Store logger.Config) :
  logger.customLogger (config s) = None ->
  logger.logAt lvl attributes s
  = (Panicking nilDereference, s, [slog.mkRecord lvl "Incoming request" attributes]).
Proof.
  intros Hnil. unfold logger.logAt.
  rewrite (bind_Return _ _ s tt s [slog.mkRecord lvl "Incoming request" attributes])
    by reflexivity.
  rewrite bind_field, Hnil. destruct s. reflexivity.
Qed.

Lemma bind_ext {S A B : Type} (m : M S A) (f g : A -> M S B) (s : S) :
  (forall a s1, f a s1 = g a s1) -> bind m f s = bind m g s.
Proof.
  intros E. unfold bind, andThen.
  destruct (m s) as [[[a | v] s1] l1]; [ now rewrite E | reflexivity ].
Qed.

(** The handler after [c.Next()], with its loops replaced by what they
    compute. *)
Lemma afterNext_run start requestID (s : Store logger.Config) :
  logger.afterNext start requestID s
  = if filteredOut (config s) (gin.Path (gin.request (ctx (world s))))
    then (Return tt, s, [])
    else bind (logger.assemble start requestID)
           (fun attributes s1 =>
              logger.logAt (firstMatchLevel (config s1) (gin.status (ctx (world s1))))
                attributes s1) s.
Proof.
  unfold logger.afterNext.
  rewrite (bind_pure _ _ s _ (pathFiltered_run s)).
  destruct (filteredOut _ _); [ reflexivity | ].
  apply bind_ext. intros attributes s1.
  now rewrite bind_field, logByStatus_run.
Qed.


End LoggerLevels.

Lemma uuid_hex_nonempty digits skip v tail :
  tail <> "" -> uuid.hex digits skip v tail <> "".
Proof.
  revert skip tail. induction digits as [| d IH]; intros skip tail Htail; cbn [uuid.hex].
  - exact Htail.
  - apply IH. discriminate.
Qed.

Lemma uuid_String_nonempty (u : uuid.UUID) : uuid.String u <> "".
Proof. unfold uuid.String. apply uuid_hex_nonempty. discriminate. Qed.

Section LoggerRequests.
Context `{RegexpLib}.

Lemma beforeNext_run (cfg : logger.Config) (w : World) :
  logger.beforeNext (mkStore cfg w)
  = (Return (clock w, requestIDOf w),
     mkStore cfg (if logger.requestIDField cfg then withRequestID w
                  else mkWorld (ctx w) (clock w) (entropy w) (S (drawn w)) (stack w)),
     []).
Proof.
  unfold logger.beforeNext.
  unfold time_Now. rewrite bind_lift_read.
  rewrite (bind_Return _ _ _ (requestIDOf w)
             (mkStore cfg (mkWorld (ctx w) (clock w) (entropy w) (S (drawn w)) (stack w))) [])
    by reflexivity.
  rewrite bind_field. cbn [config].
  destruct (logger.requestIDField cfg); reflexivity.
Qed.

Lemma handler_run (cfg : logger.Config) (next : M World unit) (w : World) :
  logger.serve cfg next w
  = bind (lift next) (fun _ => logger.afterNext (clock w) (requestIDOf w))
      (mkStore cfg (if logger.requestIDField cfg then withRequestID w
                    else mkWorld (ctx w) (clock w) (entropy w) (S (drawn w)) (stack w))).
Proof.
  unfold logger.serve, logger.handler.
  rewrite (bind_Return _ _ _ _ _ _ (beforeNext_run cfg w)). apply prepend_nil.
Qed.

(** C8.  With the request-id field enabled, the downstream chain is
    started in a world whose response header X-Request-ID holds the
    request id, whatever the path checks decide afterwards. *)
Theorem logger_sets_request_id_header (cfg : logger.Config) (next : M World unit) (w : World) :
  logger.requestIDField cfg = true ->
  gin.header (ctx (withRequestID w)) !! "X-Request-ID" = Some (requestIDOf w) /\
  logger.serve cfg next w
  = bind (lift next) (fun _ => logger.afterNext (clock w) (requestIDOf w))
      (mkStore cfg (withRequestID w)).
Proof.
  intros Hid. split.
  - unfold withRequestID, set_header. cbn [ctx gin.header].
    destruct (decide (requestIDOf w = "")) as [E | _].
    + destruct (uuid_String_nonempty (uuid.stamp (entropy w (drawn w))) E).
    + apply lookup_insert_eq.
  - rewrite handler_run, Hid. reflexivity.
Qed.

End LoggerRequests.

Section LoggerDefaults.
Context `{RegexpLib}.

(** The configuration [New] captures when it is given no option: the
    five rules of [newConfig], each with its pattern compiled. *)
Lemma logger_New_default (cfg : logger.Config) :
  logger.New [] = Return cfg ->
  exists r1 r2 r3 r4 r5,
    MustCompile logger.HTTPSuccessfulRegex = Some r2 /\
    cfg = logger.mkConfig slog.LevelInfo
            [logger.mkhttpLevel slog.LevelInfo r1; logger.mkhttpLevel slog.LevelInfo r2;
             logger.mkhttpLevel slog.LevelInfo r3; logger.mkhttpLevel slog.LevelWarn r4;
             logger.mkhttpLevel slog.LevelError r5]
            [] [] None None true true true true true true true.
Proof.
  unfold logger.New, logger.newConfig, logger.newhttpLevel, regexp_MustCompile.
  destruct (MustCompile logger.HTTPInformationalRegex) as [r1 |]; [ | discriminate ].
  destruct (MustCompile logger.HTTPSuccessfulRegex) as [r2 |]; [ | discriminate ].
  destruct (MustCompile logger.HTTPRedirectionRegex) as [r3 |]; [ | discriminate ].
  destruct (MustCompile logger.HTTPClientErrorRegex) as [r4 |]; [ | discriminate ].
  destruct (MustCompile logger.HTTPServerErrorRegex) as [r5 |]; [ | discriminate ].
  cbn. intros [= <-]. exists r1, r2, r3, r4, r5. split; reflexivity.
Qed.

(** C7.  Under the default configuration, a request whose downstream
    chain returns with method GET, path /test and status 200 adds exactly
    one record: level INFO, with the fields ip, status=200, method=GET,
    path=/test, user-agent, latency and request-id, in that order. *)
Theorem logger_default_record (cfg : logger.Config) (next : M World unit)
    (w w2 : World) (l2 : list slog.Record) :
  logger.New [] = Return cfg ->
  (forall re, MustCompile logger.HTTPSuccessfulRegex = Some re ->
              MatchString re "200" = true) ->
  next (withRequestID w) = (Return tt, w2, l2) ->
  gin.Method (gin.request (ctx w2)) = "GET" ->
  gin.Path (gin.request (ctx w2)) = "/test" ->
  gin.status (ctx w2) = 200 ->
  records (logger.serve cfg next w)
  = l2 ++ [slog.mkRecord slog.LevelInfo "Incoming request"
             [slog.String "ip" (gin.ClientIP (gin.request (ctx w2)));
              slog.Int "status" 200;
              slog.String "method" "GET";
              slog.String "path" "/test";
              slog.String "user-agent" (gin.UserAgent (gin.request (ctx w2)));
              slog.Duration "latency" (clock w2 - clock w);
              slog.String "request-id" (requestIDOf w)]].
Proof.
  intros Hnew Hlib Hnext Hmethod Hpath Hstatus.
  destruct (logger_New_default cfg Hnew) as (r1 & r2 & r3 & r4 & r5 & Hr2 & ->).
  specialize (Hlib r2 Hr2). clear Hnew.
  rewrite handler_run. cbn [logger.requestIDField].
  erewrite bind_Return; cycle 1.
  { unfold lift. cbn [world config]. rewrite Hnext. reflexivity. }
  unfold prepend, records at 1. cbn [snd]. f_equal.
  rewrite afterNext_run.
  cbn [filteredOut config logger.whitelistPaths logger.blacklistPaths forallb existsb negb orb].
  match goal with
  | |- records (bind (logger.assemble ?a ?b) ?f ?s) = _ =>
      rewrite (bind_Return (logger.assemble a b) f s
                 [slog.String "ip" (gin.ClientIP (gin.request (ctx w2)));
                  slog.Int "status" 200;
                  slog.String "method" "GET";
                  slog.String "path" "/test";
                  slog.String "user-agent" (gin.UserAgent (gin.request (ctx w2)));
                  slog.Duration "latency" (clock w2 - clock w);
                  slog.String "request-id" (requestIDOf w)] s [])
  end; cycle 1.
  { clear Hnext.
    destruct w2 as [[[method path uri urluri major minor host urlhost te hd ip] code hdr ab wr]
                      clk ent dr stk].
    cbn in Hmethod, Hpath, Hstatus. subst method path code. reflexivity. }
  rewrite logAt_without_customLogger by reflexivity.
  unfold prepend, records, firstMatchLevel.
  cbn [snd app config world logger.httpLevels find logger.regexp logger.level logger.defaultLevel].
  rewrite Hstatus. change (Sprintf_d 200) with "200". rewrite Hlib.
  destruct (MatchString r1 "200"); reflexivity.
Qed.

End LoggerDefaults.

(** ** The recovery middleware *)

Lemma recovery_handler_keeps next : keeps_config (recovery.handler next).
Proof.
  unfold recovery.handler. apply keeps_recover_with; [ apply keeps_lift | intros err ].
  unfold recovery.recovered. frame.
Qed.

Lemma recovery_New_default : recovery.New [] = Return recovery.newConfig.
Proof. reflexivity. Qed.

(** While the response has not been written, [c.AbortWithStatus(code)]
    leaves it with the status [code]; once it has been written, the status
    that went out stays. *)
Lemma abortedWith_status (code : Z) (w : World) :
  0 < code ->
  gin.status (ctx (abortedWith code w))
  = if gin.written (ctx w) then gin.status (ctx w) else code.
Proof.
  intros Hcode. unfold abortedWith, set_aborted, WriteHeaderNow, WriteHeader.
  cbn [ctx gin.status].
  destruct (Z.ltb_spec 0 code) as [_ | Hle]; [ | lia ]. cbn [andb].
  destruct (Z.eqb_spec (gin.status (ctx w)) code) as [E | _]; cbn [negb].
  - destruct (gin.written (ctx w)); congruence.
  - reflexivity.
Qed.


(** C10.  When the downstream chain returns without panicking, the
    handler returns with the world and the records exactly as the chain
    left them: no record of its own, no change to the response or the
    context. *)
Theorem recovery_transparent (cfg : recovery.Config) (next : M World unit)
    (w w1 : World) (l1 : list slog.Record) :
  next w = (Return tt, w1, l1) ->
  recovery.serve cfg next w = (Return tt, mkStore cfg w1, l1).
Proof.
  intros Hnext.
  unfold recovery.serve, recovery.handler, recover_with, lift.
  cbn [world config]. rewrite Hnext. reflexivity.
Qed.

(** ** Configuration errors *)

Section LoggerSetup.
Context `{RegexpLib}.

Lemma rangeHTTPLevels_sizes kvs c c' :
  logger.rangeHTTPLevels kvs c = Return c' -> sizes c' = sizes c.
Proof.
  revert c. induction kvs as [| [k v] rest IH]; intros c; cbn [logger.rangeHTTPLevels].
  - now intros [= ->].
  - destruct (logger.newhttpLevel k v) as [h |]; cbn [Outcome_bind]; [ | discriminate ].
    intros E. now rewrite (IH _ E).
Qed.

Lemma rangeWhitelistPath_sizes vs c c' :
  logger.rangeWhitelistPath vs c = Return c' ->
  sizes c' = ((sizes c).1 + length vs, (sizes c).2)%nat.
Proof.
  revert c. induction vs as [| v rest IH]; intros c; cbn [logger.rangeWhitelistPath].
  - intros [= ->]. unfold sizes. cbn. f_equal. lia.
  - destruct (regexp_MustCompile v) as [re |]; cbn [Outcome_bind]; [ | discriminate ].
    intros E. rewrite (IH _ E). unfold sizes. cbn. rewrite length_app. cbn. f_equal. lia.
Qed.

Lemma rangeBlacklistPath_sizes vs c c' :
  logger.rangeBlacklistPath vs c = Return c' ->
  sizes c' = ((sizes c).1, (sizes c).2 + length vs)%nat.
Proof.
  revert c. induction vs as [| v rest IH]; intros c; cbn [logger.rangeBlacklistPath].
  - intros [= ->]. unfold sizes. cbn. f_equal. lia.
  - destruct (regexp_MustCompile v) as [re |]; cbn [Outcome_bind]; [ | discriminate ].
    intros E. rewrite (IH _ E). unfold sizes. cbn. rewrite length_app. cbn. f_equal. lia.
Qed.

(** No option ever shortens a path list. *)
Lemma apply_sizes opt c c' :
  logger.apply opt c = Return c' ->
  ((sizes c).1 <= (sizes c').1 /\ (sizes c).2 <= (sizes c').2)%nat.
Proof.
  destruct opt; cbn [logger.apply]; intros E;
    try (injection E as <-; cbn; lia).
  - apply rangeHTTPLevels_sizes in E. rewrite E. cbn. lia.
  - apply rangeWhitelistPath_sizes in E. rewrite E. cbn. lia.
  - apply rangeBlacklistPath_sizes in E. rewrite E. cbn. lia.
Qed.

Lemma rangeOpts_sizes opts c c' :
  logger.rangeOpts opts c = Return c' ->
  ((sizes c).1 <= (sizes c').1 /\ (sizes c).2 <= (sizes c').2)%nat.
Proof.
  revert c. induction opts as [| opt rest IH]; intros c; cbn [logger.rangeOpts].
  - intros [= ->]. lia.
  - destruct (logger.apply opt c) as [c1 |] eqn:E1; cbn [Outcome_bind]; [ | discriminate ].
    intros E. apply apply_sizes in E1. apply IH in E. lia.
Qed.

Lemma rangeOpts_whitelist opts ws c c' :
  In (logger.WithWhitelistPath ws) opts ->
  logger.rangeOpts opts c = Return c' -> (length ws <= (sizes c').1)%nat.
Proof.
  revert c. induction opts as [| opt rest IH]; intros c Hin; [ destruct Hin | ].
  cbn [logger.rangeOpts].
  destruct (logger.apply opt c) as [c1 |] eqn:E1; cbn [Outcome_bind]; [ | discriminate ].
  intros E. destruct Hin as [-> | Hin].
  - cbn [logger.apply] in E1. apply rangeWhitelistPath_sizes in E1.
    apply rangeOpts_sizes in E. unfold sizes in *. cbn [fst snd] in *.
    injection E1 as E1w E1b. lia.
  - exact (IH _ Hin E).
Qed.

Lemma rangeOpts_blacklist opts bs c c' :
  In (logger.WithBlacklistPath bs) opts ->
  logger.rangeOpts opts c = Return c' -> (length bs <= (sizes c').2)%nat.
Proof.
  revert c. induction opts as [| opt rest IH]; intros c Hin; [ destruct Hin | ].
  cbn [logger.rangeOpts].
  destruct (logger.apply opt c) as [c1 |] eqn:E1; cbn [Outcome_bind]; [ | discriminate ].
  intros E. destruct Hin as [-> | Hin].
  - cbn [logger.apply] in E1. apply rangeBlacklistPath_sizes in E1.
    apply rangeOpts_sizes in E. unfold sizes in *. cbn [fst snd] in *.
    injection E1 as E1w E1b. lia.
  - exact (IH _ Hin E).
Qed.

Lemma validate_both_lists c :
  logger.whitelistPaths c <> [] -> logger.blacklistPaths c <> [] ->
  logger.validate c = Panicking (AnyString "whitelist and blacklist can't be used together").
Proof.
  unfold logger.validate.
  destruct (logger.whitelistPaths c); [ congruence | ].
  destruct (logger.blacklistPaths c); [ congruence | ]. reflexivity.
Qed.

(** C5.  Options that give the logger a non-empty whitelist and a
    non-empty blacklist make [New] panic: no handler is returned. *)
Theorem logger_whitelist_and_blacklist_panic (opts : list logger.ConfigOption)
    (ws bs : list string) :
  In (logger.WithWhitelistPath ws) opts -> ws <> [] ->
  In (logger.WithBlacklistPath bs) opts -> bs <> [] ->
  exists v, logger.New opts = Panicking v.
Proof.
  intros Hw Hws Hb Hbs. unfold logger.New.
  destruct logger.newConfig as [c0 | v0]; cbn [Outcome_bind]; [ | now exists v0 ].
  destruct (logger.rangeOpts opts c0) as [c | v1] eqn:E; cbn [Outcome_bind];
    [ | now exists v1 ].
  pose proof (rangeOpts_whitelist _ _ _ _ Hw E) as Lw.
  pose proof (rangeOpts_blacklist _ _ _ _ Hb E) as Lb.
  unfold sizes in Lw, Lb. cbn [fst snd] in Lw, Lb.
  rewrite validate_both_lists.
  - cbn. eauto.
  - destruct ws; [ congruence | ]. destruct (logger.whitelistPaths c); cbn in Lw; [ lia | discriminate ].
  - destruct bs; [ congruence | ]. destruct (logger.blacklistPaths c); cbn in Lb; [ lia | discriminate ].
Qed.

Lemma validate_no_fields c :
  logger.isDefaultFields c = false -> logger.customFields c = None ->
  exists v, logger.validate c = Panicking v.
Proof.
  intros Hd Hc. unfold logger.validate. rewrite Hd, Hc.
  destruct (negb _ && negb _); cbn; eauto.
Qed.

(** C6.  For both middlewares, when the options leave every default field
    off and no custom-fields callback, [New] panics: no handler is
    returned, so the failure cannot wait for a request. *)
Theorem no_fields_panic :
  (forall (opts : list logger.ConfigOption) (c0 cfg : logger.Config),
      logger.newConfig = Return c0 -> logger.rangeOpts opts c0 = Return cfg ->
      logger.isDefaultFields cfg = false -> logger.customFields cfg = None ->
      exists v, logger.New opts = Panicking v) /\
  (forall (opts : list recovery.ConfigOption),
      recovery.isDefaultFields (recovery.rangeOpts opts recovery.newConfig) = false ->
      recovery.customFields (recovery.rangeOpts opts recovery.newConfig) = None ->
      recovery.New opts = Panicking (AnyString "no fields to log")).
Proof.
  split.
  - intros opts c0 cfg E0 E Hd Hc. unfold logger.New. rewrite E0. cbn [Outcome_bind].
    rewrite E. cbn [Outcome_bind].
    destruct (validate_no_fields cfg Hd Hc) as [v ->]. cbn. eauto.
  - intros opts Hd Hc. unfold recovery.New, recovery.validate. now rewrite Hd, Hc.
Qed.


End LoggerSetup.

(** ** The handlers on the requests of the tests *)

Example uuid_String_of_test_bytes :
  uuid.String (uuid.stamp 0x52fdfc072182654f163f5f0f9a621d72%N)
  = "52fdfc07-2182-454f-963f-5f0f9a621d72".
Proof. vm_compute. reflexivity. Qed.

Example Sprintf_d_values :
  Sprintf_d 200 = "200" /\ Sprintf_d 0 = "0" /\ Sprintf_d (-7) = "-7".
Proof. vm_compute. auto. Qed.

Example default_rules_on_codes :
  map (firstMatchLevel (fixture.loggerConfig [])) [100; 200; 302; 404; 500; 99; 2000]
  = [slog.LevelInfo; slog.LevelInfo; slog.LevelInfo; slog.LevelWarn; slog.LevelError;
     slog.LevelInfo; slog.LevelInfo].
Proof. vm_compute. reflexivity. Qed.

(** C3 (the code at the failing input).  With the whitelist
    ["/test1"; "/test2"], a request for /test1, whose path matches the first
    regex, is dropped without a record: the loop returns at the first regex
    that does not match. *)
Theorem logger_whitelist_drops_listed_path :
  logger.New fixture.twoRoutes = Return (fixture.loggerConfig fixture.twoRoutes) /\
  existsb (fun v => MatchString v "/test1")
    (logger.whitelistPaths (fixture.loggerConfig fixture.twoRoutes)) = true /\
  outcome (logger.serve (fixture.loggerConfig fixture.twoRoutes) (fixture.JSON 200)
             (fixture.world "/test1" "test1")) = Return tt /\
  records (logger.serve (fixture.loggerConfig fixture.twoRoutes) (fixture.JSON 200)
             (fixture.world "/test1" "test1")) = [].
Proof. repeat split; reflexivity. Qed.

(** C4 (the code at the failing input).  With no option at all, the
    request of the test "default options" is logged and then the handler
    panics on the nil custom logger. *)
Theorem logger_default_panics_on_nil_customLogger :
  logger.New [] = Return (fixture.loggerConfig []) /\
  logger.customLogger (fixture.loggerConfig []) = None /\
  outcome (logger.serve (fixture.loggerConfig []) (fixture.JSON 200)
             (fixture.world "/test" "test"))
  = Panicking nilDereference.
Proof. repeat split; reflexivity. Qed.

(** ** The general statements at the requests of the tests *)


(** The test "default options" of the logger. *)
Lemma logger_default_record_witness :
  records (logger.serve (fixture.loggerConfig []) (fixture.JSON 200)
             (fixture.world "/test" "test"))
  = [slog.mkRecord slog.LevelInfo "Incoming request" fixture.testAttributes].
Proof.
  rewrite (logger_default_record (H := re2_lib) (fixture.loggerConfig []) (fixture.JSON 200)
             (fixture.world "/test" "test")
             (final (fixture.JSON 200 (withRequestID (fixture.world "/test" "test")))) []).
  - reflexivity.
  - reflexivity.
  - intros re E. vm_compute in E. injection E as <-. vm_compute. reflexivity.
  - reflexivity.
  - reflexivity.
  - reflexivity.
  - reflexivity.
Defined.

(** The first request of the blacklist test: /test1 is blacklisted, and
    the header is set all the same. *)
Lemma logger_sets_request_id_header_witness :
  gin.header (ctx (withRequestID (fixture.world "/test1" "test1"))) !! "X-Request-ID"
  = Some (requestIDOf (fixture.world "/test1" "test1")) /\
  logger.serve (fixture.loggerConfig [logger.WithBlacklistPath ["/test1"]])
    (fixture.JSON 200) (fixture.world "/test1" "test1")
  = bind (lift (fixture.JSON 200))
      (fun _ => logger.afterNext (clock (fixture.world "/test1" "test1"))
                  (requestIDOf (fixture.world "/test1" "test1")))
      (mkStore (fixture.loggerConfig [logger.WithBlacklistPath ["/test1"]])
         (withRequestID (fixture.world "/test1" "test1"))).
Proof.
  apply (logger_sets_request_id_header (H := re2_lib)
           (fixture.loggerConfig [logger.WithBlacklistPath ["/test1"]])
           (fixture.JSON 200) (fixture.world "/test1" "test1")).
  reflexivity.
Defined.

(** The test "whitelist and blacklist test1". *)
Lemma logger_whitelist_and_blacklist_panic_witness :
  exists v, logger.New fixture.bothLists = Panicking v.
Proof.
  apply (logger_whitelist_and_blacklist_panic (H := re2_lib) fixture.bothLists
           ["/test1"] ["/test1"]).
  - simpl. auto.
  - discriminate.
  - simpl. auto.
  - discriminate.
Defined.

(** The tests "without default fields" of both packages. *)
Lemma no_fields_panic_witness :
  (exists v, logger.New [logger.WithoutDefaultFields] = Panicking v) /\
  recovery.New [recovery.WithoutDefaultFields] = Panicking (AnyString "no fields to log").
Proof.
  split.
  - eapply (proj1 (no_fields_panic (H := re2_lib)) [logger.WithoutDefaultFields]).
    + reflexivity.
    + reflexivity.
    + reflexivity.
    + reflexivity.
  - apply (proj2 (no_fields_panic (H := re2_lib)) [recovery.WithoutDefaultFields]);
      reflexivity.
Defined.




Lemma recovery_transparent_witness :
  recovery.serve recovery.newConfig (fixture.JSON 204) (fixture.world "/test" "test")
  = (Return tt,
     mkStore recovery.newConfig
       (final (fixture.JSON 204 (fixture.world "/test" "test"))), []).
Proof.
  apply (recovery_transparent recovery.newConfig (fixture.JSON 204)
           (fixture.world "/test" "test")).
  reflexivity.
Defined.

(** * Further properties of the request logger *)

Section LoggerMore.
Context `{RegexpLib}.

(** X1.  With no whitelist, a request whose path matches one of the
    blacklist regexes ends the handler at once: it returns normally, hands
    nothing to the logger, calls no callback and leaves the store as it is. *)
Theorem logger_blacklisted_request_is_silent start requestID
    (s : Store logger.Config) (v : Regexp) :
  logger.whitelistPaths (config s) = [] ->
  In v (logger.blacklistPaths (config s)) ->
  MatchString v (gin.Path (gin.request (ctx (world s)))) = true ->
  logger.afterNext start requestID s = (Return tt, s, []).
Proof.
  intros Hwl Hin Hmatch. rewrite afterNext_run.
  assert (Hdrop : filteredOut (config s) (gin.Path (gin.request (ctx (world s)))) = true).
  { unfold filteredOut. rewrite Hwl. cbn [forallb negb orb].
    apply existsb_exists. exists v. split; assumption. }
  now rewrite Hdrop.
Qed.

(** X2.  The request logger has no recovery of its own: when the
    downstream chain panics, the handler panics with the same value and
    hands no record to the logger. *)
Theorem logger_lets_panics_through (cfg : logger.Config) (next : M World unit)
    (w w1 : World) (err : any) (l1 : list slog.Record) :
  next (if logger.requestIDField cfg then withRequestID w else uuidDrawn w)
  = (Panicking err, w1, l1) ->
  logger.serve cfg next w = (Panicking err, mkStore cfg w1, l1).
Proof.
  intros Hnext. rewrite handler_run.
  apply bind_Panicking. unfold lift. cbn [world config].
  fold (uuidDrawn w). now rewrite Hnext.
Qed.

(** X3.  With the request-id field disabled, the downstream chain starts
    with the context exactly as the handler received it (no X-Request-ID
    header is written), although a UUID has still been drawn. *)
Theorem logger_without_request_id_leaves_context (cfg : logger.Config)
    (next : M World unit) (w : World) :
  logger.requestIDField cfg = false ->
  ctx (uuidDrawn w) = ctx w /\ drawn (uuidDrawn w) = S (drawn w) /\
  logger.serve cfg next w
  = bind (lift next) (fun _ => logger.afterNext (clock w) (requestIDOf w))
      (mkStore cfg (uuidDrawn w)).
Proof.
  intros Hid. split; [ reflexivity | split; [ reflexivity | ] ].
  rewrite handler_run, Hid. reflexivity.
Qed.

(** What the block that fills [attributes] comes to. *)
Lemma assemble_run start requestID (s : Store logger.Config) :
  logger.assemble start requestID s
  = match logger.customFields (config s) with
    | None => (Return (loggerAttributes (config s) start requestID (world s)), s, [])
    | Some f =>
        andThen (lift f s)
          (fun extra => ret (loggerAttributes (config s) start requestID (world s) ++ extra))
    end.
Proof.
  destruct s as [cfg w]. cbn [config world].
  unfold logger.assemble, loggerAttributes.
  destruct cfg as [dl hls wl bl cl cf ip st me pa ua la ri].
  cbn [logger.ipField logger.statusField logger.methodField logger.pathField
       logger.userAgentField logger.latencyField logger.requestIDField logger.customFields].
  destruct cf as [f |].
  - destruct ip, st, me, pa, ua, la, ri;
      cbv [bind andThen field lift read ret prepend outcome final records
           logger.writerStatus logger.requestPath time_Since config world fst snd
           logger.ipField logger.statusField logger.methodField logger.pathField
           logger.userAgentField logger.latencyField logger.requestIDField
           logger.customFields app];
      destruct (f w) as [[[extra | v] w'] l]; reflexivity.
  - destruct ip, st, me, pa, ua, la, ri; reflexivity.
Qed.

(** X9.  Without a custom-fields callback, assembling the attributes
    never panics, changes nothing and hands nothing to the logger; the
    result holds exactly the enabled default fields, always in the order
    ip, status, method, path, user-agent, latency, request-id. *)
Theorem logger_attributes_follow_flags start requestID (s : Store logger.Config) :
  logger.customFields (config s) = None ->
  logger.assemble start requestID s
  = (Return (loggerAttributes (config s) start requestID (world s)), s, []).
Proof. intros Hcf. rewrite assemble_run. now rewrite Hcf. Qed.

(** X10.  The attributes of a custom-fields callback come after the
    default ones, which are read before the callback runs (so the latency
    does not include it); a panic of the callback is the handler's. *)
Theorem logger_custom_fields_come_last start requestID (s : Store logger.Config)
    (f : logger.CustomFields) :
  logger.customFields (config s) = Some f ->
  (forall extra w1 l1, f (world s) = (Return extra, w1, l1) ->
     logger.assemble start requestID s
     = (Return (loggerAttributes (config s) start requestID (world s) ++ extra),
        mkStore (config s) w1, l1)) /\
  (forall err w1 l1, f (world s) = (Panicking err, w1, l1) ->
     logger.assemble start requestID s = (Panicking err, mkStore (config s) w1, l1)).
Proof.
  intros Hcf. rewrite assemble_run, Hcf. unfold lift.
  split; intros ? w1 l1 Hf; rewrite Hf; [ | reflexivity ].
  unfold andThen, prepend, ret, outcome, final, records. cbn [fst snd].
  now rewrite app_nil_r.
Qed.

End LoggerMore.

(** * Further properties of the options *)

Section OptionsMore.
Context `{RegexpLib}.

Lemma rangeOpts_app opts1 opts2 c :
  logger.rangeOpts (opts1 ++ opts2) c
  = Outcome_bind (logger.rangeOpts opts1 c) (logger.rangeOpts opts2).
Proof.
  revert c. induction opts1 as [| opt rest IH]; intros c; cbn [app logger.rangeOpts].
  - reflexivity.
  - destruct (logger.apply opt c) as [c1 | v]; cbn [Outcome_bind]; [ apply IH | reflexivity ].
Qed.

(** X4.  A configuration that [New] hands to a handler has passed
    [validate]: it never holds a whitelist and a blacklist together, and it
    has a default field enabled or a custom-fields callback. *)
Theorem logger_New_validated (opts : list logger.ConfigOption) (cfg : logger.Config) :
  logger.New opts = Return cfg ->
  (logger.whitelistPaths cfg = [] \/ logger.blacklistPaths cfg = []) /\
  (logger.isDefaultFields cfg = true \/ exists f, logger.customFields cfg = Some f).
Proof.
  unfold logger.New.
  destruct logger.newConfig as [c0 |]; cbn [Outcome_bind]; [ | discriminate ].
  destruct (logger.rangeOpts opts c0) as [c |]; cbn [Outcome_bind]; [ | discriminate ].
  unfold logger.validate.
  destruct (logger.whitelistPaths c) as [| v wl] eqn:Ewl;
    destruct (logger.blacklistPaths c) as [| b bl] eqn:Ebl; cbn [length Nat.eqb negb andb];
    try discriminate;
    (destruct (logger.isDefaultFields c) eqn:Ed; destruct (logger.customFields c) as [f |] eqn:Ec;
     cbn [negb andb isNil Outcome_bind]; try discriminate;
     intros [= <-]; rewrite ?Ewl, ?Ebl, ?Ed, ?Ec; split; eauto).
Qed.

Lemma rangeHTTPLevels_compiles kvs c c' expr :
  logger.rangeHTTPLevels kvs c = Return c' -> In expr (map fst kvs) ->
  MustCompile expr <> None.
Proof.
  revert c. induction kvs as [| [k v] rest IH]; intros c E Hin; [ destruct Hin | ].
  cbn [logger.rangeHTTPLevels] in E. unfold logger.newhttpLevel, regexp_MustCompile in E.
  destruct (MustCompile k) as [re |] eqn:Ek; cbn [Outcome_bind] in E; [ | discriminate ].
  destruct Hin as [<- | Hin]; [ cbn; congruence | exact (IH _ E Hin) ].
Qed.

Lemma rangeWhitelistPath_compiles vs c c' expr :
  logger.rangeWhitelistPath vs c = Return c' -> In expr vs -> MustCompile expr <> None.
Proof.
  revert c. induction vs as [| v rest IH]; intros c E Hin; [ destruct Hin | ].
  cbn [logger.rangeWhitelistPath] in E. unfold regexp_MustCompile in E.
  destruct (MustCompile v) as [re |] eqn:Ev; cbn [Outcome_bind] in E; [ | discriminate ].
  destruct Hin as [<- | Hin]; [ congruence | exact (IH _ E Hin) ].
Qed.

Lemma rangeBlacklistPath_compiles vs c c' expr :
  logger.rangeBlacklistPath vs c = Return c' -> In expr vs -> MustCompile expr <> None.
Proof.
  revert c. induction vs as [| v rest IH]; intros c E Hin; [ destruct Hin | ].
  cbn [logger.rangeBlacklistPath] in E. unfold regexp_MustCompile in E.
  destruct (MustCompile v) as [re |] eqn:Ev; cbn [Outcome_bind] in E; [ | discriminate ].
  destruct Hin as [<- | Hin]; [ congruence | exact (IH _ E Hin) ].
Qed.

Lemma rangeOpts_compiles opts c c' opt expr :
  logger.rangeOpts opts c = Return c' -> In opt opts -> In expr (patterns opt) ->
  MustCompile expr <> None.
Proof.
  revert c. induction opts as [| o rest IH]; intros c E Hopt Hexpr; [ destruct Hopt | ].
  cbn [logger.rangeOpts] in E.
  destruct (logger.apply o c) as [c1 |] eqn:E1; cbn [Outcome_bind] in E; [ | discriminate ].
  destruct Hopt as [-> | Hopt]; [ | exact (IH _ E Hopt Hexpr) ].
  destruct opt; cbn [patterns] in Hexpr; try destruct Hexpr; cbn [logger.apply] in E1.
  - exact (rangeHTTPLevels_compiles _ _ _ _ E1 Hexpr).
  - exact (rangeWhitelistPath_compiles _ _ _ _ E1 Hexpr).
  - exact (rangeBlacklistPath_compiles _ _ _ _ E1 Hexpr).
Qed.

(** X5.  A pattern that [regexp.MustCompile] rejects, anywhere in a
    [WithHTTPLevels], [WithWhitelistPath] or [WithBlacklistPath] option,
    makes [New] panic whatever the other options are. *)
Theorem logger_invalid_regex_panics (opts : list logger.ConfigOption)
    (opt : logger.ConfigOption) (expr : string) :
  In opt opts -> In expr (patterns opt) -> MustCompile expr = None ->
  exists v, logger.New opts = Panicking v.
Proof.
  intros Hopt Hexpr Hbad. unfold logger.New.
  destruct logger.newConfig as [c0 | v0]; cbn [Outcome_bind]; [ | now exists v0 ].
  destruct (logger.rangeOpts opts c0) as [c | v1] eqn:E; cbn [Outcome_bind];
    [ | now exists v1 ].
  destruct (rangeOpts_compiles _ _ _ _ _ E Hopt Hexpr Hbad).
Qed.

Lemma rangeWhitelistPath_app vs1 vs2 c :
  logger.rangeWhitelistPath (vs1 ++ vs2) c
  = Outcome_bind (logger.rangeWhitelistPath vs1 c) (logger.rangeWhitelistPath vs2).
Proof.
  revert c. induction vs1 as [| v rest IH]; intros c; cbn [app logger.rangeWhitelistPath].
  - reflexivity.
  - destruct (regexp_MustCompile v) as [re | p]; cbn [Outcome_bind]; [ apply IH | reflexivity ].
Qed.

Lemma rangeBlacklistPath_app vs1 vs2 c :
  logger.rangeBlacklistPath (vs1 ++ vs2) c
  = Outcome_bind (logger.rangeBlacklistPath vs1 c) (logger.rangeBlacklistPath vs2).
Proof.
  revert c. induction vs1 as [| v rest IH]; intros c; cbn [app logger.rangeBlacklistPath].
  - reflexivity.
  - destruct (regexp_MustCompile v) as [re | p]; cbn [Outcome_bind]; [ apply IH | reflexivity ].
Qed.

(** X6.  The path options add to the lists instead of replacing them:
    two [WithWhitelistPath] (or two [WithBlacklistPath]) options in a row
    give [New] the same result, configuration or panic, as one option with
    the two lists joined. *)
Theorem logger_path_options_accumulate (before after : list logger.ConfigOption)
    (vs1 vs2 : list string) :
  logger.New (before ++ logger.WithWhitelistPath vs1 :: logger.WithWhitelistPath vs2 :: after)
  = logger.New (before ++ logger.WithWhitelistPath (vs1 ++ vs2) :: after) /\
  logger.New (before ++ logger.WithBlacklistPath vs1 :: logger.WithBlacklistPath vs2 :: after)
  = logger.New (before ++ logger.WithBlacklistPath (vs1 ++ vs2) :: after).
Proof.
  unfold logger.New.
  destruct logger.newConfig as [c0 | v0]; cbn [Outcome_bind]; [ | split; reflexivity ].
  rewrite !rangeOpts_app.
  destruct (logger.rangeOpts before c0) as [c | v1]; cbn [Outcome_bind]; [ | split; reflexivity ].
  cbn [logger.rangeOpts logger.apply].
  rewrite rangeWhitelistPath_app, rangeBlacklistPath_app.
  split.
  - destruct (logger.rangeWhitelistPath vs1 c); reflexivity.
  - destruct (logger.rangeBlacklistPath vs1 c); reflexivity.
Qed.

Lemma set_httpLevels_twice (a b : list logger.httpLevel) (c : logger.Config) :
  logger.set_httpLevels a (logger.set_httpLevels b c) = logger.set_httpLevels a c.
Proof. reflexivity. Qed.

Lemma rangeHTTPLevels_rules kvs c c' :
  logger.rangeHTTPLevels kvs c = Return c' ->
  exists hs,
    Forall2 (fun (kv : string * slog.Level) (h : logger.httpLevel) =>
               MustCompile kv.1 = Some (logger.regexp h) /\ logger.level h = kv.2) kvs hs /\
    c' = logger.set_httpLevels (logger.httpLevels c ++ hs) c.
Proof.
  revert c. induction kvs as [| [k v] rest IH]; intros c; cbn [logger.rangeHTTPLevels].
  - intros [= <-]. exists []. split; [ constructor | ].
    rewrite app_nil_r. now destruct c.
  - unfold logger.newhttpLevel, regexp_MustCompile.
    destruct (MustCompile k) as [re |] eqn:Ek; cbn [Outcome_bind]; [ | discriminate ].
    intros E. destruct (IH _ E) as (hs & Hhs & ->).
    exists (logger.mkhttpLevel v re :: hs). split.
    + constructor; [ split; [ exact Ek | reflexivity ] | exact Hhs ].
    + rewrite set_httpLevels_twice. cbn [logger.httpLevels logger.set_httpLevels].
      now rewrite <- app_assoc.
Qed.

(** X7.  [WithHTTPLevels] replaces the rules instead of adding to them:
    afterwards the configuration holds one rule per entry, in the order the
    entries were ranged over, each with the compiled key and the level of
    its entry, and every other field is as before.  The default rules of
    [newConfig] are gone. *)
Theorem logger_WithHTTPLevels_replaces (kvs : list (string * slog.Level))
    (c c' : logger.Config) :
  logger.apply (logger.WithHTTPLevels kvs) c = Return c' ->
  Forall2 (fun (kv : string * slog.Level) (h : logger.httpLevel) =>
             MustCompile kv.1 = Some (logger.regexp h) /\ logger.level h = kv.2)
    kvs (logger.httpLevels c') /\
  c' = logger.set_httpLevels (logger.httpLevels c') c.
Proof.
  cbn [logger.apply]. intros E.
  destruct (rangeHTTPLevels_rules _ _ _ E) as (hs & Hhs & ->).
  cbn [logger.httpLevels logger.set_httpLevels app]. split; [ exact Hhs | reflexivity ].
Qed.

Lemma apply_flags opt c c' :
  logger.apply opt c = Return c' ->
  Forall2 (fun after before : bool => after = true -> before = true) (flags c') (flags c).
Proof.
  assert (Hrefl : forall l : list bool,
             Forall2 (fun after before : bool => after = true -> before = true) l l).
  { induction l; constructor; auto. }
  destruct opt; cbn [logger.apply]; intros E;
    try (injection E as <-; unfold flags; cbn;
         repeat (constructor; [ solve [ auto | discriminate ] | ]); constructor).
  - destruct (rangeHTTPLevels_rules _ _ _ E) as (hs & _ & ->). apply Hrefl.
  - assert (Hsame : flags c' = flags c); [ | rewrite Hsame; apply Hrefl ].
    revert c E. induction whitelistPath as [| v rest IH]; intros c;
      cbn [logger.rangeWhitelistPath]; [ now intros [= <-] | ].
    destruct (regexp_MustCompile v); cbn [Outcome_bind]; [ | discriminate ].
    intros E. now rewrite (IH _ E).
  - assert (Hsame : flags c' = flags c); [ | rewrite Hsame; apply Hrefl ].
    revert c E. induction blacklistPath as [| v rest IH]; intros c;
      cbn [logger.rangeBlacklistPath]; [ now intros [= <-] | ].
    destruct (regexp_MustCompile v); cbn [Outcome_bind]; [ | discriminate ].
    intros E. now rewrite (IH _ E).
Qed.

(** X8.  No option turns a default field back on: whatever the options,
    a field that is enabled in the configuration they leave was enabled in
    the configuration they started from. *)
Theorem logger_options_never_enable_a_field (opts : list logger.ConfigOption)
    (c c' : logger.Config) :
  logger.rangeOpts opts c = Return c' ->
  Forall2 (fun after before : bool => after = true -> before = true) (flags c') (flags c).
Proof.
  revert c. induction opts as [| opt rest IH]; intros c; cbn [logger.rangeOpts].
  - intros [= <-]. unfold flags. repeat constructor; auto.
  - destruct (logger.apply opt c) as [c1 |] eqn:E1; cbn [Outcome_bind]; [ | discriminate ].
    intros E. apply IH in E. apply apply_flags in E1.
    unfold flags in *.
    repeat match goal with
           | H : Forall2 _ (_ :: _) (_ :: _) |- _ => inversion H; subst; clear H
           | H : Forall2 _ [] [] |- _ => clear H
           end.
    repeat constructor; auto.
Qed.

End OptionsMore.

(** * The default rules, on the reference engine *)

Lemma default_levels_checked :
  forallb (fun n : nat =>
             Z.eqb (firstMatchLevel (fixture.loggerConfig []) (100 + Z.of_nat n))
                   (documentedLevel (100 + Z.of_nat n)))
    (seq 0 500) = true.
Proof. vm_compute. reflexivity. Qed.

(** X11.  With no option and the reference regexp engine, the rules of
    [newConfig] give every status code from 100 to 599 the level the doc
    comment of [New] states: INFO for 1xx, 2xx and 3xx, WARN for 4xx and
    ERROR for 5xx. *)
Theorem logger_default_levels (cfg : logger.Config) (code : Z) :
  logger.New [] = Return cfg ->
  100 <= code <= 599 ->
  firstMatchLevel cfg code = documentedLevel code.
Proof.
  intros Hnew Hcode.
  assert (Hcfg : cfg = fixture.loggerConfig []).
  { unfold fixture.loggerConfig. now rewrite Hnew. }
  subst cfg. clear Hnew.
  pose proof default_levels_checked as Hall.
  rewrite forallb_forall in Hall.
  specialize (Hall (Z.to_nat (code - 100))).
  replace (100 + Z.of_nat (Z.to_nat (code - 100))) with code in Hall by lia.
  apply Z.eqb_eq, Hall, in_seq. lia.
Qed.

Lemma logger_default_levels_witness :
  firstMatchLevel (fixture.loggerConfig []) 404 = documentedLevel 404.
Proof.
  apply (logger_default_levels (fixture.loggerConfig []) 404); [ reflexivity | lia ].
Defined.

(** * Further properties of the recovery middleware *)

(** What the deferred function does once it has recovered [err]. *)
Lemma recovered_run (err : any) (s : Store recovery.Config) :
  recovery.recovered err s
  = match recovery.customFields (config s) with
    | None =>
        prepend [slog.mkRecord (recovery.defaultLevel (config s)) "Panic recovered"
                   (recoveryAttributes (config s) err (world s))]
          (lift (recoveryAction (config s) err) s)
    | Some f =>
        andThen (lift f s)
          (fun extra s1 =>
             prepend [slog.mkRecord (recovery.defaultLevel (config s1)) "Panic recovered"
                        (recoveryAttributes (config s) err (world s) ++ extra)]
               (lift (recoveryAction (config s1) err) s1))
    end.
Proof.
  destruct s as [cfg w]. cbn [config world].
  unfold recovery.recovered, recoveryAttributes, recoveryAction.
  destruct cfg as [dl cr cf ef rf sf].
  cbn [recovery.errorField recovery.requestField recovery.stackField recovery.customFields
       recovery.defaultLevel recovery.customRecovery].
  destruct cf as [f |].
  - destruct ef, rf, sf;
      cbv [bind andThen field lift read ret prepend outcome final records LogAttrs
           recovery.isDefaultFields orb config world fst snd
           recovery.errorField recovery.requestField recovery.stackField
           recovery.customFields recovery.defaultLevel recovery.customRecovery];
      destruct (f w) as [[[extra | v] w'] l]; try reflexivity;
      destruct (call _ w') as [[o w''] l']; cbn [app];
      rewrite ?app_nil_r, <- ?app_assoc; reflexivity.
  - destruct ef, rf, sf;
      cbv [bind andThen field lift read ret prepend outcome final records LogAttrs
           recovery.isDefaultFields orb config world fst snd
           recovery.errorField recovery.requestField recovery.stackField
           recovery.customFields recovery.defaultLevel recovery.customRecovery];
      destruct (call _ w) as [[o w'] l']; reflexivity.
Qed.

Lemma recovery_serve_panicking (cfg : recovery.Config) (next : M World unit)
    (w w1 : World) (err : any) (l1 : list slog.Record) :
  next w = (Panicking err, w1, l1) ->
  recovery.serve cfg next w = prepend l1 (recovery.recovered err (mkStore cfg w1)).
Proof.
  intros Hnext. unfold recovery.serve, recovery.handler, recover_with, lift at 1.
  cbn [world config]. now rewrite Hnext.
Qed.

(** X12.  Whatever the options (and with no custom-fields callback),
    a downstream panic makes the handler write one record first, at the
    configured level whatever the status, with message "Panic recovered"
    and exactly the enabled fields in the order error, request, stack, and
    only then run the recovery action on the panic value; what the action
    does (its records, its outcome) is the rest of the handler. *)
Theorem recovery_logs_then_recovers (cfg : recovery.Config) (next : M World unit)
    (w w1 : World) (err : any) (l1 : list slog.Record) :
  next w = (Panicking err, w1, l1) ->
  recovery.customFields cfg = None ->
  recovery.serve cfg next w
  = prepend (l1 ++ [slog.mkRecord (recovery.defaultLevel cfg) "Panic recovered"
                      (recoveryAttributes cfg err w1)])
      (lift (recoveryAction cfg err) (mkStore cfg w1)).
Proof.
  intros Hnext Hcf.
  rewrite (recovery_serve_panicking _ _ _ _ _ _ Hnext), recovered_run.
  cbn [config world]. rewrite Hcf. apply prepend_prepend.
Qed.

(** X13.  The attributes of a custom-fields callback come after the
    default ones in the one record; the request dump and the stack are
    taken before the callback runs, and the recovery action runs in the
    world the callback left. *)
Theorem recovery_custom_fields_come_last (cfg : recovery.Config) (next : M World unit)
    (f : recovery.CustomFields) (w w1 w2 : World) (err : any)
    (extra : list slog.Attr) (l1 l2 : list slog.Record) :
  next w = (Panicking err, w1, l1) ->
  recovery.customFields cfg = Some f ->
  f w1 = (Return extra, w2, l2) ->
  recovery.serve cfg next w
  = prepend (l1 ++ l2 ++ [slog.mkRecord (recovery.defaultLevel cfg) "Panic recovered"
                            (recoveryAttributes cfg err w1 ++ extra)])
      (lift (recoveryAction cfg err) (mkStore cfg w2)).
Proof.
  intros Hnext Hcf Hf.
  rewrite (recovery_serve_panicking _ _ _ _ _ _ Hnext), recovered_run.
  cbn [config world]. rewrite Hcf. unfold lift at 1. cbn [config world]. rewrite Hf.
  cbn [andThen config]. rewrite !prepend_prepend. now rewrite app_assoc.
Qed.

(** X14.  With a nil recovery action ([WithCustomRecovery(nil)], which
    [New] accepts), a downstream panic is logged but not absorbed: after the
    record, the call of the nil func panics out of the handler. *)
Theorem recovery_nil_action_panics (cfg : recovery.Config) (next : M World unit)
    (w w1 : World) (err : any) (l1 : list slog.Record) :
  next w = (Panicking err, w1, l1) ->
  recovery.customFields cfg = None ->
  recovery.customRecovery cfg = None ->
  recovery.serve cfg next w
  = (Panicking nilDereference, mkStore cfg w1,
     l1 ++ [slog.mkRecord (recovery.defaultLevel cfg) "Panic recovered"
              (recoveryAttributes cfg err w1)]).
Proof.
  intros Hnext Hcf Hcr.
  rewrite (recovery_serve_panicking _ _ _ _ _ _ Hnext), recovered_run.
  cbn [config world]. rewrite Hcf. unfold recoveryAction. rewrite Hcr.
  unfold prepend, lift, call, panic, option_map, outcome, final, records.
  cbn [fst snd config world]. now rewrite app_nil_r.
Qed.

(** * The two middlewares in one chain *)

(** X15.  The chain of the README, the logger first and the recovery
    middleware inside it, both with no option (reference regexp engine): a
    panic of a route that had not written its response gives two records,
    "Panic recovered" and then "Incoming request", the second with status
    500 and at the level of the 5xx rule, ERROR. *)
Theorem logger_around_recovery (cfg : logger.Config) (route : M World unit)
    (w w1 : World) (err : any) (l1 : list slog.Record) :
  logger.New [] = Return cfg ->
  route (withRequestID w) = (Panicking err, w1, l1) ->
  gin.written (ctx w1) = false ->
  records (logger.serve cfg (downstream recovery.newConfig (recovery.handler route)) w)
  = l1 ++ [slog.mkRecord slog.LevelError "Panic recovered"
             [slog.Any "error" err;
              slog.String "request" (DumpRequest (gin.request (ctx w1)));
              slog.String "stack" (stack w1)];
           slog.mkRecord slog.LevelError "Incoming request"
             [slog.String "ip" (gin.ClientIP (gin.request (ctx w1)));
              slog.Int "status" 500;
              slog.String "method" (gin.Method (gin.request (ctx w1)));
              slog.String "path" (gin.Path (gin.request (ctx w1)));
              slog.String "user-agent" (gin.UserAgent (gin.request (ctx w1)));
              slog.Duration "latency" (clock w1 - clock w);
              slog.String "request-id" (requestIDOf w)]].
Proof.
  intros Hnew Hroute Hfresh.
  assert (Hcfg : cfg = fixture.loggerConfig []).
  { unfold fixture.loggerConfig. now rewrite Hnew. }
  subst cfg. clear Hnew.
  assert (Hlevel : firstMatchLevel (fixture.loggerConfig []) 500 = slog.LevelError)
    by (vm_compute; reflexivity).
  assert (Hstatus : gin.status (ctx (abortedWith 500 w1)) = 500).
  { rewrite abortedWith_status by lia. now rewrite Hfresh. }
  rewrite handler_run.
  replace (logger.requestIDField (fixture.loggerConfig [])) with true by reflexivity.
  rewrite (bind_Return _ _ _ tt
             (mkStore (fixture.loggerConfig []) (abortedWith 500 w1))
             (l1 ++ [slog.mkRecord slog.LevelError "Panic recovered"
                       [slog.Any "error" err;
                        slog.String "request" (DumpRequest (gin.request (ctx w1)));
                        slog.String "stack" (stack w1)]])).
  - rewrite afterNext_run.
    match goal with
    | |- context [filteredOut ?c ?p] => replace (filteredOut c p) with false by reflexivity
    end.
    rewrite (bind_Return _ _ _
               [slog.String "ip" (gin.ClientIP (gin.request (ctx w1)));
                slog.Int "status" (gin.status (ctx (abortedWith 500 w1)));
                slog.String "method" (gin.Method (gin.request (ctx w1)));
                slog.String "path" (gin.Path (gin.request (ctx w1)));
                slog.String "user-agent" (gin.UserAgent (gin.request (ctx w1)));
                slog.Duration "latency" (clock w1 - clock w);
                slog.String "request-id" (requestIDOf w)]
               (mkStore (fixture.loggerConfig []) (abortedWith 500 w1)) [])
      by (rewrite assemble_run; reflexivity).
    rewrite logAt_without_customLogger by reflexivity.
    unfold prepend, records. cbn [snd fst app config world].
    rewrite Hstatus, Hlevel. now rewrite <- app_assoc.
  - unfold lift, downstream. cbn [config world].
    change (recovery.handler route (mkStore recovery.newConfig (withRequestID w)))
      with (recovery.serve recovery.newConfig route (withRequestID w)).
    rewrite (recovery_serve_panicking _ _ _ _ _ _ Hroute), recovered_run.
    reflexivity.
Qed.

(** * The further properties at the requests of the tests *)

(** The first request of the blacklist test. *)
Lemma logger_blacklisted_request_is_silent_witness :
  logger.afterNext 0 "52fdfc07-2182-454f-963f-5f0f9a621d72"
    (mkStore (fixture.loggerConfig [logger.WithBlacklistPath ["/test1"]])
       (fixture.world "/test1" "test1"))
  = (Return tt,
     mkStore (fixture.loggerConfig [logger.WithBlacklistPath ["/test1"]])
       (fixture.world "/test1" "test1"), []).
Proof.
  apply (logger_blacklisted_request_is_silent (H := re2_lib) 0
           "52fdfc07-2182-454f-963f-5f0f9a621d72"
           (mkStore (fixture.loggerConfig [logger.WithBlacklistPath ["/test1"]])
              (fixture.world "/test1" "test1"))
           (fixture.compiled "/test1")).
  - reflexivity.
  - left. reflexivity.
  - reflexivity.
Defined.

Lemma logger_lets_panics_through_witness :
  logger.serve (fixture.loggerConfig []) fixture.panics (fixture.world "/test" "test")
  = (Panicking (AnyString "test"),
     mkStore (fixture.loggerConfig []) (withRequestID (fixture.world "/test" "test")), []).
Proof.
  apply (logger_lets_panics_through (H := re2_lib) (fixture.loggerConfig []) fixture.panics
           (fixture.world "/test" "test")).
  reflexivity.
Defined.

(** The test "without request ID". *)
Lemma logger_without_request_id_leaves_context_witness :
  ctx (uuidDrawn (fixture.world "/test" "test")) = ctx (fixture.world "/test" "test") /\
  drawn (uuidDrawn (fixture.world "/test" "test")) = S (drawn (fixture.world "/test" "test")) /\
  logger.serve (fixture.loggerConfig [logger.WithoutRequestID]) (fixture.JSON 200)
    (fixture.world "/test" "test")
  = bind (lift (fixture.JSON 200))
      (fun _ => logger.afterNext (clock (fixture.world "/test" "test"))
                  (requestIDOf (fixture.world "/test" "test")))
      (mkStore (fixture.loggerConfig [logger.WithoutRequestID])
         (uuidDrawn (fixture.world "/test" "test"))).
Proof.
  apply (logger_without_request_id_leaves_context (H := re2_lib)
           (fixture.loggerConfig [logger.WithoutRequestID]) (fixture.JSON 200)
           (fixture.world "/test" "test")).
  reflexivity.
Defined.

Lemma logger_attributes_follow_flags_witness :
  logger.assemble 0 "52fdfc07-2182-454f-963f-5f0f9a621d72"
    (mkStore (fixture.loggerConfig [logger.WithoutIP; logger.WithoutLatency])
       (fixture.world "/test" "test"))
  = (Return (loggerAttributes (fixture.loggerConfig [logger.WithoutIP; logger.WithoutLatency])
               0 "52fdfc07-2182-454f-963f-5f0f9a621d72" (fixture.world "/test" "test")),
     mkStore (fixture.loggerConfig [logger.WithoutIP; logger.WithoutLatency])
       (fixture.world "/test" "test"), []).
Proof.
  apply (logger_attributes_follow_flags (H := re2_lib) 0 "52fdfc07-2182-454f-963f-5f0f9a621d72"
           (mkStore (fixture.loggerConfig [logger.WithoutIP; logger.WithoutLatency])
              (fixture.world "/test" "test"))).
  reflexivity.
Defined.

(** The test "custom with default fields". *)
Lemma logger_custom_fields_come_last_witness :
  logger.assemble 0 "52fdfc07-2182-454f-963f-5f0f9a621d72"
    (mkStore (fixture.loggerConfig [logger.WithCustomFields (Some fixture.contentType)])
       (fixture.world "/test" "test"))
  = (Return (fixture.testAttributes ++ [slog.String "content-type" "test"]),
     mkStore (fixture.loggerConfig [logger.WithCustomFields (Some fixture.contentType)])
       (fixture.world "/test" "test"), []).
Proof.
  apply (proj1 (logger_custom_fields_come_last (H := re2_lib) 0
                  "52fdfc07-2182-454f-963f-5f0f9a621d72"
                  (mkStore (fixture.loggerConfig
                              [logger.WithCustomFields (Some fixture.contentType)])
                     (fixture.world "/test" "test"))
                  fixture.contentType eq_refl)
           [slog.String "content-type" "test"] (fixture.world "/test" "test") []).
  reflexivity.
Defined.

Lemma logger_New_validated_witness :
  (logger.whitelistPaths (fixture.loggerConfig [logger.WithBlacklistPath ["/test1"]]) = [] \/
   logger.blacklistPaths (fixture.loggerConfig [logger.WithBlacklistPath ["/test1"]]) = []) /\
  (logger.isDefaultFields (fixture.loggerConfig [logger.WithBlacklistPath ["/test1"]]) = true \/
   exists f,
     logger.customFields (fixture.loggerConfig [logger.WithBlacklistPath ["/test1"]]) = Some f).
Proof.
  apply (logger_New_validated (H := re2_lib) [logger.WithBlacklistPath ["/test1"]]).
  reflexivity.
Defined.

(** An unclosed group is rejected by the reference engine, as by Go's. *)
Lemma logger_invalid_regex_panics_witness :
  exists v, logger.New [logger.WithoutIP; logger.WithBlacklistPath ["/test1"; "("]]
            = Panicking v.
Proof.
  apply (logger_invalid_regex_panics (H := re2_lib)
           [logger.WithoutIP; logger.WithBlacklistPath ["/test1"; "("]]
           (logger.WithBlacklistPath ["/test1"; "("]) "(").
  - right. left. reflexivity.
  - right. left. reflexivity.
  - reflexivity.
Defined.

(** The test "set HTTP level". *)
Lemma logger_WithHTTPLevels_replaces_witness :
  Forall2 (fun (kv : string * slog.Level) (h : logger.httpLevel) =>
             MustCompile kv.1 = Some (logger.regexp h) /\ logger.level h = kv.2)
    [(logger.HTTPSuccessfulRegex, slog.LevelWarn)]
    (logger.httpLevels (fixture.loggerConfig fixture.warnOn2xx)) /\
  fixture.loggerConfig fixture.warnOn2xx
  = logger.set_httpLevels (logger.httpLevels (fixture.loggerConfig fixture.warnOn2xx))
      (fixture.loggerConfig []).
Proof.
  apply (logger_WithHTTPLevels_replaces (H := re2_lib)
           [(logger.HTTPSuccessfulRegex, slog.LevelWarn)]
           (fixture.loggerConfig []) (fixture.loggerConfig fixture.warnOn2xx)).
  reflexivity.
Defined.

Lemma logger_options_never_enable_a_field_witness :
  Forall2 (fun after before : bool => after = true -> before = true)
    (flags (fixture.loggerConfig [logger.WithoutIP; logger.WithoutLatency]))
    (flags (fixture.loggerConfig [])).
Proof.
  apply (logger_options_never_enable_a_field (H := re2_lib)
           [logger.WithoutIP; logger.WithoutLatency]).
  reflexivity.
Defined.

(** The test "with default level" of the recovery middleware. *)
Lemma recovery_logs_then_recovers_witness :
  recovery.serve (recovery.rangeOpts [recovery.WithDefaultLevel slog.LevelWarn]
                    recovery.newConfig)
    fixture.panics (fixture.world "/test" "test")
  = prepend ([] ++ [slog.mkRecord slog.LevelWarn "Panic recovered"
                      (recoveryAttributes
                         (recovery.rangeOpts [recovery.WithDefaultLevel slog.LevelWarn]
                            recovery.newConfig)
                         (AnyString "test") (fixture.world "/test" "test"))])
      (lift (recoveryAction
               (recovery.rangeOpts [recovery.WithDefaultLevel slog.LevelWarn]
                  recovery.newConfig) (AnyString "test"))
         (mkStore (recovery.rangeOpts [recovery.WithDefaultLevel slog.LevelWarn]
                     recovery.newConfig) (fixture.world "/test" "test"))).
Proof.
  apply (recovery_logs_then_recovers
           (recovery.rangeOpts [recovery.WithDefaultLevel slog.LevelWarn] recovery.newConfig)
           fixture.panics (fixture.world "/test" "test") (fixture.world "/test" "test")
           (AnyString "test") []);
    reflexivity.
Defined.

(** The test "with custom fields with default fields". *)
Lemma recovery_custom_fields_come_last_witness :
  recovery.serve fixture.recoveryWithFields fixture.panics (fixture.world "/test" "test")
  = prepend ([] ++ [] ++
             [slog.mkRecord slog.LevelError "Panic recovered"
                (recoveryAttributes fixture.recoveryWithFields (AnyString "test")
                   (fixture.world "/test" "test") ++ [slog.String "content-type" "test"])])
      (lift (recoveryAction fixture.recoveryWithFields (AnyString "test"))
         (mkStore fixture.recoveryWithFields (fixture.world "/test" "test"))).
Proof.
  apply (recovery_custom_fields_come_last fixture.recoveryWithFields fixture.panics
           fixture.contentType (fixture.world "/test" "test") (fixture.world "/test" "test")
           (fixture.world "/test" "test") (AnyString "test")
           [slog.String "content-type" "test"] [] []);
    reflexivity.
Defined.

Lemma recovery_nil_action_panics_witness :
  recovery.New [recovery.WithCustomRecovery None] = Return fixture.recoveryWithNilAction /\
  recovery.serve fixture.recoveryWithNilAction fixture.panics (fixture.world "/test" "test")
  = (Panicking nilDereference,
     mkStore fixture.recoveryWithNilAction (fixture.world "/test" "test"),
     [] ++ [slog.mkRecord slog.LevelError "Panic recovered"
              (recoveryAttributes fixture.recoveryWithNilAction (AnyString "test")
                 (fixture.world "/test" "test"))]).
Proof.
  split; [ reflexivity | ].
  apply (recovery_nil_action_panics fixture.recoveryWithNilAction fixture.panics
           (fixture.world "/test" "test") (fixture.world "/test" "test")
           (AnyString "test") []);
    reflexivity.
Defined.

(** The request for /panic of the README. *)
Lemma logger_around_recovery_witness :
  map slog.Message
    (records (logger.serve (fixture.loggerConfig [])
                (downstream recovery.newConfig (recovery.handler fixture.panics))
                (fixture.world "/panic" "curl/7.86.0")))
  = ["Panic recovered"; "Incoming request"] /\
  map slog.RLevel
    (records (logger.serve (fixture.loggerConfig [])
                (downstream recovery.newConfig (recovery.handler fixture.panics))
                (fixture.world "/panic" "curl/7.86.0")))
  = [slog.LevelError; slog.LevelError].
Proof.
  rewrite (logger_around_recovery (fixture.loggerConfig []) fixture.panics
             (fixture.world "/panic" "curl/7.86.0")
             (withRequestID (fixture.world "/panic" "curl/7.86.0"))
             (AnyString "test") []); [ split | | | ]; reflexivity.
Defined.
